(** * Transcript acquisition services: yt-dlp server and whisper server

    A shallow embedding of
      skills/web-to-rag/infrastructure/docker/yt-dlp/app.py
      skills/web-to-rag/infrastructure/docker/whisper/app.py
    and the properties their specification states about them.

    Conventions.
    - A Python [str] is a list of Unicode code points ([N]); [py "..."]
      writes a literal.  File contents are kept as text.
    - Endpoints are computations in a state-and-exception monad [M]:
      they thread the process state (file system, module globals, local
      variables read by a [finally] block) and either return a value or
      raise an exception.
    - What lies outside the repository (the yt-dlp executable, the
      faster-whisper model, the uploaded file, the HTTP client, the json
      and tempfile modules) is an oracle in a record [Env]: every theorem
      quantifies over it. *)

From stdpp Require Import base numbers option list strings gmap.
From Stdlib Require Import Ascii PrimFloat.

Set Default Proof Using "Type".

(* ********************************************************************* *)
(** * Python strings                                                      *)
(* ********************************************************************* *)

Abbreviation pystr := (list N) (only parsing).

(** A literal: the code points of an ASCII string. *)
Fixpoint py (s : string) : pystr :=
  match s with
  | EmptyString => []
  | String a s' => N_of_ascii a :: py s'
  end.
Arguments py s%_string.

(** [s.startswith(lit)], returning what follows the literal. *)
Fixpoint strip_prefix (lit s : pystr) : option pystr :=
  match lit, s with
  | [], _ => Some s
  | _ :: _, [] => None
  | a :: lit', b :: s' => if N.eqb a b then strip_prefix lit' s' else None
  end.

Definition startswith (s lit : pystr) : bool :=
  match strip_prefix lit s with Some _ => true | None => false end.

(** [lit in s] *)
Fixpoint contains (lit s : pystr) : bool :=
  startswith s lit ||
  match s with
  | [] => false
  | _ :: s' => contains lit s'
  end.

Definition endswith (s lit : pystr) : bool := startswith (rev s) (rev lit).

(** [str.isspace] for one character (CPython's [_PyUnicode_IsWhitespace]). *)
Definition is_space (c : N) : bool :=
  (((9 <=? c) && (c <=? 13)) || ((28 <=? c) && (c <=? 32)) ||
   (c =? 133) || (c =? 160) || (c =? 5760) ||
   ((8192 <=? c) && (c <=? 8202)) || (c =? 8232) || (c =? 8233) ||
   (c =? 8239) || (c =? 8287) || (c =? 12288))%N.

Fixpoint lstrip (s : pystr) : pystr :=
  match s with
  | [] => []
  | c :: s' => if is_space c then lstrip s' else s
  end.

Definition rstrip (s : pystr) : pystr := rev (lstrip (rev s)).

(** [s.strip()] *)
Definition strip (s : pystr) : pystr := rstrip (lstrip s).

(** [sep.join(parts)] *)
Fixpoint join (sep : pystr) (parts : list pystr) : pystr :=
  match parts with
  | [] => []
  | [p] => p
  | p :: rest => p ++ sep ++ join sep rest
  end.

(* ********************************************************************* *)
(** * Exceptions and the state-and-exception monad                        *)
(* ********************************************************************* *)

Inductive exn_class :=
| ValueError
| TimeoutExpired            (* subprocess.TimeoutExpired *)
| HTTPError                 (* httpx.HTTPError and its subclasses *)
| HTTPException (status_code : Z)   (* fastapi.HTTPException *)
| OtherException.           (* any other subclass of Exception *)

(** An exception: its class and [str(e)] (for an [HTTPException], its
    detail). *)
Record exn := Exn { exn_cls : exn_class; exn_str : pystr }.

Inductive res (A : Type) :=
| Ok (a : A)
| Raise (e : exn).
Arguments Ok {A} a.
Arguments Raise {A} e.

Definition M (S A : Type) : Type := S -> res A * S.

Definition ret {S A} (a : A) : M S A := fun s => (Ok a, s).

Definition raise {S A} (e : exn) : M S A := fun s => (Raise e, s).

Definition bind {S A B} (m : M S A) (k : A -> M S B) : M S B :=
  fun s =>
    match m s with
    | (Ok a, s') => k a s'
    | (Raise e, s') => (Raise e, s')
    end.

Definition lift {S A} (r : res A) : M S A := fun s => (r, s).

Definition get {S} : M S S := fun s => (Ok s, s).

Definition modify {S} (f : S -> S) : M S unit := fun s => (Ok tt, f s).

(** [try: body  except C1 as e: h1 e  except C2 as e: h2 e ...]: a clause
    is a test telling which exceptions its class covers, and a handler;
    the first clause that covers the exception handles it. *)
Fixpoint dispatch {S A} (clauses : list ((exn -> bool) * (exn -> M S A)))
    (e : exn) : M S A :=
  match clauses with
  | [] => raise e
  | (covers, handler) :: clauses' =>
      if covers e then handler e else dispatch clauses' e
  end.

Definition try_except {S A} (body : M S A)
    (clauses : list ((exn -> bool) * (exn -> M S A))) : M S A :=
  fun s =>
    match body s with
    | (Ok a, s') => (Ok a, s')
    | (Raise e, s') => dispatch clauses e s'
    end.

(** [try: body  finally: final]: the final block always runs; when it
    raises, its exception replaces the outcome of the body. *)
Definition try_finally {S A} (body : M S A) (final : M S unit) : M S A :=
  fun s =>
    match body s with
    | (r, s') =>
        match final s' with
        | (Ok _, s'') => (r, s'')
        | (Raise e, s'') => (Raise e, s'')
        end
    end.

Declare Scope py_scope.
Delimit Scope py_scope with py.
Notation "x <- m ;; k" := (bind m (fun x => k))
  (at level 100, m at next level, right associativity) : py_scope.
Notation "m ;;; k" := (bind m (fun _ => k))
  (at level 100, right associativity) : py_scope.

(** [except Exception] *)
Definition any_Exception (e : exn) : bool := true.

(** [except subprocess.TimeoutExpired] *)
Definition is_TimeoutExpired (e : exn) : bool :=
  match exn_cls e with TimeoutExpired => true | _ => false end.

(** [except httpx.HTTPError] *)
Definition is_HTTPError (e : exn) : bool :=
  match exn_cls e with HTTPError => true | _ => false end.

(** [except ValueError] *)
Definition is_ValueError (e : exn) : bool :=
  match exn_cls e with ValueError => true | _ => false end.

(* ********************************************************************* *)
(** * yt-dlp server                                                       *)
(* ********************************************************************* *)

Module YtDlp.

(** ** extract_video_id *)

(** The character class [[a-zA-Z0-9_-]]. *)
Definition is_id_char (c : N) : bool :=
  (((97 <=? c) && (c <=? 122)) || ((65 <=? c) && (c <=? 90)) ||
   ((48 <=? c) && (c <=? 57)) || (c =? 95) || (c =? 45))%N.

(** An eleven-character token over the class. *)
Definition token (t : pystr) : Prop :=
  length t = 11 ∧ forallb is_id_char t = true.

(** The group [([a-zA-Z0-9_-]{11})] matched at the head of [s]: the eleven
    characters it captures. *)
Definition match_id11 (s : pystr) : option pystr :=
  let t := take 11 s in
  if (length t =? 11)%nat && forallb is_id_char t then Some t else None.

(** [(?:lit1|lit2|...)([a-zA-Z0-9_-]{11})] matched at the head of [s]:
    the alternatives are tried from left to right, each followed by the
    group; the result is the text of group 1. *)
Fixpoint match_alts (lits : list pystr) (s : pystr) : option pystr :=
  match lits with
  | [] => None
  | lit :: lits' =>
      match strip_prefix lit s ≫= match_id11 with
      | Some g => Some g
      | None => match_alts lits' s
      end
  end.

(** [re.search] of such a pattern: the leftmost position with a match. *)
Fixpoint search_alts (lits : list pystr) (s : pystr) : option pystr :=
  match match_alts lits s with
  | Some g => Some g
  | None =>
      match s with
      | [] => None
      | _ :: s' => search_alts lits s'
      end
  end.

(** [re.search(r'^([a-zA-Z0-9_-]{11})$', s)]: [^] matches at the start
    only, [$] at the end or before a newline that ends the string. *)
Definition search_bare (s : pystr) : option pystr :=
  match match_id11 s with
  | Some g =>
      match drop 11 s with
      | [] => Some g
      | [10%N] => Some g
      | _ => None
      end
  | None => None
  end.

(** The alternatives of the first and of the second pattern. *)
Definition url_markers : list pystr := [py "v="; py "/v/"; py "youtu.be/"].

Definition embed_markers : list pystr := [py "embed/"].

(** The list [patterns], each as its [re.search]. *)
Definition patterns : list (pystr -> option pystr) :=
  [ search_alts url_markers; search_alts embed_markers; search_bare ].

(** A literal of at most eleven characters whose last one is outside the
    class. *)
Definition marker (lit : pystr) : bool :=
  (length lit <=? 11)%nat &&
  match last lit with
  | Some c => negb (is_id_char c)
  | None => false
  end.

(** The [for pattern in patterns] loop. *)
Fixpoint first_match (ps : list (pystr -> option pystr)) (url : pystr)
    : option pystr :=
  match ps with
  | [] => None
  | p :: ps' =>
      match p url with
      | Some g => Some g
      | None => first_match ps' url
      end
  end.

Definition extract_video_id (url : pystr) : res pystr :=
  match first_match patterns url with
  | Some g => Ok g
  | None =>
      Raise (Exn ValueError (py "Could not extract video ID from: " ++ url))
  end.

(** ** Models *)

Record YouTubeRequest := {
  url : pystr;
  req_language : pystr;
  prefer_manual : bool
}.

Record YouTubeResponse := {
  success : bool;
  video_id : pystr;
  title : option pystr;
  transcript : option pystr;
  source : option pystr;
  language : pystr;
  duration : option Z;
  error : option pystr
}.

(** The dictionary returned by [download_youtube_audio]. *)
Record AudioResponse := {
  audio_success : bool;
  audio_path : pystr;
  audio_video_id : pystr;
  cached : bool
}.

Record CompletedProcess := {
  returncode : Z;
  stdout : pystr;
  stderr : pystr
}.

(** ** Process state and the outside world *)

(** The file system (path to content) and the log of the external
    commands run so far, each with its timeout in seconds. *)
Record State := {
  files : gmap pystr pystr;
  calls : list (list pystr * N)
}.

Record Env := {
  (** the external process behind [subprocess.run(cmd, timeout=t)]: it
      completes with an exit code or makes [run] raise (TimeoutExpired
      when it exceeds [t], or an OSError), and leaves a file system *)
  run_process : list pystr -> N -> State -> res CompletedProcess * gmap pystr pystr;
  (** [json.loads(stdout)] followed by [.get("title")] and
      [.get("duration")] *)
  json_title_duration : pystr -> res (option pystr * option Z);
  (** the directory name chosen by [tempfile.TemporaryDirectory()] *)
  mkdtemp : State -> res pystr;
  (** [utils.vtt_cleaner.clean_vtt_content] *)
  clean_vtt_content : pystr -> pystr
}.

Section Endpoints.
Context (env : Env).
Local Open Scope py_scope.

(** The state once [cmd] has run, leaving the file system [fs]. *)
Definition ran (cmd : list pystr) (timeout : N) (fs : gmap pystr pystr)
    (s : State) : State :=
  {| files := fs; calls := calls s ++ [(cmd, timeout)] |}.

(** [subprocess.run(cmd, capture_output=True, text=True, timeout=timeout)] *)
Definition subprocess_run (cmd : list pystr) (timeout : N)
    : M State CompletedProcess :=
  fun s =>
    let '(r, fs) := run_process env cmd timeout s in
    (r, ran cmd timeout fs s).

(** [os.path.exists] *)
Definition path_exists (p : pystr) : M State bool :=
  fun s => (Ok (bool_decide (is_Some (files s !! p))), s).

(** [with open(p, 'r', encoding='utf-8') as f: f.read()] *)
Definition read_text (p : pystr) : M State pystr :=
  fun s =>
    match files s !! p with
    | Some c => (Ok c, s)
    | None => (Raise (Exn OtherException (py "No such file or directory")), s)
    end.

(** [os.path.join(a, b)] (posixpath) *)
Definition path_join (a b : pystr) : pystr :=
  if startswith b (py "/") then b
  else if bool_decide (a = []) || endswith a (py "/") then a ++ b
  else a ++ py "/" ++ b.

(** Leaving [with tempfile.TemporaryDirectory()]: the directory and what
    is below it are removed. *)
Definition rmtree (dir : pystr) : M State unit :=
  modify (fun s =>
    {| files := filter (fun kv => ¬ (dir ++ py "/") `prefix_of` kv.1) (files s);
       calls := calls s |}).

(** [s.replace(old, new)] for a non-empty [old]; [skip] counts the
    characters of a replaced occurrence still to pass over. *)
Fixpoint replace_from (skip : nat) (old new s : pystr) : pystr :=
  match s with
  | [] => []
  | c :: s' =>
      match skip with
      | S k => replace_from k old new s'
      | O =>
          if startswith s old
          then new ++ replace_from (length old - 1) old new s'
          else c :: replace_from 0 old new s'
      end
  end.

Definition replace (old new s : pystr) : pystr := replace_from 0 old new s.

Definition watch_url (video_id : pystr) : pystr :=
  py "https://www.youtube.com/watch?v=" ++ video_id.

(** The command line that fetches subtitles; [flag] is [--write-sub] or
    [--write-auto-sub]. *)
Definition cmd_subs (flag language output_template video_url : pystr)
    : list pystr :=
  [ py "yt-dlp"; flag; py "--sub-lang"; language; py "--sub-format"; py "vtt";
    py "--skip-download"; py "-o"; output_template; video_url ].

Definition vtt_path (output_template language : pystr) : pystr :=
  output_template ++ py "." ++ language ++ py ".vtt".

Definition cmd_info (video_url : pystr) : list pystr :=
  [py "yt-dlp"; py "--dump-json"; py "--no-download"; video_url].

Definition cmd_audio (output_path video_url : pystr) : list pystr :=
  [ py "yt-dlp"; py "-x"; py "--audio-format"; py "mp3"; py "-o";
    replace (py ".mp3") (py ".%(ext)s") output_path; video_url ].

(** The cache path of a video's audio. *)
Definition audio_output_path (video_id : pystr) : pystr :=
  py "/app/temp/" ++ video_id ++ py ".mp3".

(** Get video title and duration: best effort, any failure leaves both
    absent. *)
Definition get_title_duration (video_url : pystr)
    : M State (option pystr * option Z) :=
  try_except
    (info_result <- subprocess_run (cmd_info video_url) 30;;
     if (returncode info_result =? 0)%Z
     then lift (json_title_duration env (stdout info_result))
     else ret (None, None))
    [(any_Exception, fun _ => ret (None, None))].

(** The message of the response when no subtitles are found. *)
Definition no_subtitles : pystr :=
  py "No subtitles available. Use whisper-server for audio transcription.".

(** ** POST /youtube/transcript *)
Definition extract_youtube_transcript (request : YouTubeRequest)
    : M State YouTubeResponse :=
  match extract_video_id (url request) with
  | Raise e =>
      if is_ValueError e then
        ret {| success := false; video_id := []; title := None;
               transcript := None; source := None;
               language := req_language request; duration := None;
               error := Some (exn_str e) |}
      else raise e
  | Ok video_id =>
      let video_url := watch_url video_id in
      meta <- get_title_duration video_url;;
      let '(title, duration) := meta in
      temp_dir <- (fun s => (mkdtemp env s, s));;
      try_finally
        (let output_template := path_join temp_dir (py "subs") in
         let vtt_file := vtt_path output_template (req_language request) in
         let respond (source : pystr) : M State YouTubeResponse :=
           vtt_content <- read_text vtt_file;;
           let transcript := clean_vtt_content env vtt_content in
           ret {| success := true; video_id := video_id; title := title;
                  transcript := Some transcript; source := Some source;
                  language := req_language request; duration := duration;
                  error := None |} in
         let try_auto : M State YouTubeResponse :=
           (* Try auto-generated subtitles *)
           subprocess_run
             (cmd_subs (py "--write-auto-sub") (req_language request)
                output_template video_url) 120;;;
           found <- path_exists vtt_file;;
           if found then respond (py "auto-generated")
           else
             (* No subtitles available *)
             ret {| success := false; video_id := video_id; title := title;
                    transcript := None; source := None;
                    language := req_language request; duration := duration;
                    error := Some no_subtitles |} in
         (* Try manual subtitles first if preferred *)
         if prefer_manual request then
           subprocess_run
             (cmd_subs (py "--write-sub") (req_language request)
                output_template video_url) 120;;;
           found <- path_exists vtt_file;;
           if found then respond (py "manual") else try_auto
         else try_auto)
        (rmtree temp_dir)
  end.

(** ** POST /youtube/audio *)
Definition download_youtube_audio (url : pystr) : M State AudioResponse :=
  match extract_video_id url with
  | Raise e =>
      if is_ValueError e then raise (Exn (HTTPException 400) (exn_str e))
      else raise e
  | Ok video_id =>
      let video_url := watch_url video_id in
      let output_path := audio_output_path video_id in
      (* Check cache *)
      hit <- path_exists output_path;;
      if hit then
        ret {| audio_success := true; audio_path := output_path;
               audio_video_id := video_id; cached := true |}
      else
        let cmd := cmd_audio output_path video_url in
        try_except
          (result <- subprocess_run cmd 300;;
           if negb (returncode result =? 0)%Z then
             raise (Exn (HTTPException 500) (py "yt-dlp error: " ++ stderr result))
           else
             created <- path_exists output_path;;
             if created then
               ret {| audio_success := true; audio_path := output_path;
                      audio_video_id := video_id; cached := false |}
             else raise (Exn (HTTPException 500) (py "Audio file not created")))
          [(is_TimeoutExpired,
            fun _ => raise (Exn (HTTPException 504) (py "Timeout downloading audio")))]
  end.

(** ** Points of a run, for stating properties *)

(** The request reaches the caption attempts: the identifier resolves,
    the metadata step ends in [s1] with [title] and [duration], and the
    temporary directory [temp_dir] is created. *)
Definition reaches_captions (request : YouTubeRequest) (s : State)
    (video_id : pystr) (title : option pystr) (duration : option Z)
    (s1 : State) (temp_dir : pystr) : Prop :=
  extract_video_id (url request) = Ok video_id ∧
  get_title_duration (watch_url video_id) s = (Ok (title, duration), s1) ∧
  mkdtemp env s1 = Ok temp_dir.

End Endpoints.

End YtDlp.

(* ********************************************************************* *)
(** * Whisper server                                                      *)
(* ********************************************************************* *)

Module Whisper.

(** ** Models *)

Record TranscribeResponse := {
  success : bool;
  transcript : option pystr;
  language : option pystr;
  language_probability : option float;
  duration : option float;
  model_used : pystr;
  error : option pystr
}.

Record TranscribeUrlRequest := {
  url : pystr;
  req_language : option pystr;
  model : pystr
}.

(** ** The recognition capability (faster_whisper) *)

(** A loaded model: [instance] tells the objects apart, [size] is the
    size it was constructed for. *)
Record WhisperModel := {
  instance : nat;
  size : pystr
}.

Record Segment := {
  seg_start : float;
  seg_end : float;
  text : pystr
}.

Record TranscriptionInfo := {
  info_language : pystr;
  info_language_probability : float;
  info_duration : float
}.

(** The lazy sequence of segments: finite and forward-only; iterating it
    yields [yields] in order and then either stops or raises. *)
Record Segments := {
  yields : list Segment;
  fails_with : option exn
}.

(** An uploaded file: its name and the outcome of [await file.read()]. *)
Record UploadFile := {
  filename : option pystr;
  read : res pystr
}.

(** The response of [client.get]: [raise_for_status] raises
    [status_error] when there is one. *)
Record Response := {
  status_error : option exn;
  content_type : option pystr;
  content : pystr
}.

(** ** Process state and the outside world *)

(** The file system, the module global [whisper_model], the number of
    [WhisperModel] objects constructed so far, and the local variable
    [temp_file] of the running endpoint (read by its [finally] block):
    the name of the temporary file once it is created. *)
Record State := {
  files : gmap pystr pystr;
  whisper_model : option WhisperModel;
  constructed : nat;
  temp_file : option pystr
}.

Record Env := {
  (** [os.getenv("WHISPER_MODEL", "base")] *)
  WHISPER_MODEL_SIZE : pystr;
  (** the exception [WhisperModel(size, ...)] raises, if it does *)
  load_error : pystr -> State -> option exn;
  (** [model.transcribe(path, language=..., beam_size=5)] *)
  recognize : WhisperModel -> pystr -> option pystr -> State
              -> res (Segments * TranscriptionInfo);
  (** [os.path.splitext(p)[1]] *)
  splitext_ext : pystr -> pystr;
  (** the name chosen by [tempfile.NamedTemporaryFile(suffix=, dir=)] *)
  mkstemp : pystr -> pystr -> State -> res pystr;
  (** the exception [temp_file.write] or [temp_file.close] raises *)
  write_error : pystr -> pystr -> State -> option exn;
  (** [client.get(url, follow_redirects=True)] with a 300 s timeout *)
  http_get : pystr -> State -> res Response
}.

Section Endpoints.
Context (env : Env).
Local Open Scope py_scope.

(** Truth value of an [Optional[str]]: neither [None] nor empty. *)
Definition truthy (o : option pystr) : bool :=
  match o with
  | Some (_ :: _) => true
  | _ => false
  end.

(** [WhisperModel(size, device="cpu", compute_type="int8")].  The weights
    the constructor downloads on first use go to the cache of the
    library, which [files] does not cover: [files] holds the paths the
    endpoints create, read and remove. *)
Definition new_WhisperModel (size : pystr) : M State WhisperModel :=
  fun s =>
    match load_error env size s with
    | Some e => (Raise e, s)
    | None =>
        (Ok {| instance := constructed s; size := size |},
         {| files := files s; whisper_model := whisper_model s;
            constructed := S (constructed s); temp_file := temp_file s |})
    end.

(** Assignments to the global, the local variable and the file system. *)
Definition with_whisper_model (m : WhisperModel) (s : State) : State :=
  {| files := files s; whisper_model := Some m;
     constructed := constructed s; temp_file := temp_file s |}.

Definition with_temp_file (t : option pystr) (s : State) : State :=
  {| files := files s; whisper_model := whisper_model s;
     constructed := constructed s; temp_file := t |}.

Definition with_files (fs : gmap pystr pystr) (s : State) : State :=
  {| files := fs; whisper_model := whisper_model s;
     constructed := constructed s; temp_file := temp_file s |}.

Definition set_whisper_model (m : WhisperModel) : M State unit :=
  modify (with_whisper_model m).

(** ** get_whisper_model *)
Definition get_whisper_model (model_size : option pystr) : M State WhisperModel :=
  let size := match model_size with
              | Some (c :: r) => c :: r
              | _ => WHISPER_MODEL_SIZE env
              end in
  s <- get;;
  (* If requesting different model, reload *)
  if bool_decide (whisper_model s ≠ None) && truthy model_size
     && bool_decide (model_size ≠ Some (WHISPER_MODEL_SIZE env))
  then new_WhisperModel size
  else
    match whisper_model s with
    | None =>
        m <- new_WhisperModel size;;
        set_whisper_model m;;;
        ret m
    | Some m => ret m
    end.

(** ** Temporary files *)

Definition set_temp_file (t : option pystr) : M State unit :=
  modify (with_temp_file t).

Definition set_files (fs : gmap pystr pystr) : M State unit :=
  modify (with_files fs).

(** [temp_file = tempfile.NamedTemporaryFile(delete=False, suffix=suffix,
    dir="/app/temp")]: the file is created empty and the local variable
    is bound. *)
Definition NamedTemporaryFile (suffix dir : pystr) : M State pystr :=
  name <- (fun s => (mkstemp env suffix dir s, s));;
  s <- get;;
  set_files (<[name := []]> (files s));;;
  set_temp_file (Some name);;;
  ret name.

(** [temp_file.write(content); temp_file.close()] *)
Definition write_and_close (name data : pystr) : M State unit :=
  s <- get;;
  match write_error env name data s with
  | Some e => raise e
  | None => set_files (<[name := data]> (files s))
  end.

(** [os.path.exists] *)
Definition path_exists (p : pystr) : M State bool :=
  fun s => (Ok (bool_decide (is_Some (files s !! p))), s).

(** [os.unlink] *)
Definition unlink (p : pystr) : M State unit :=
  s <- get;;
  match files s !! p with
  | Some _ => set_files (delete p (files s))
  | None => raise (Exn OtherException (py "No such file or directory"))
  end.

(** The [finally] block of the upload and URL endpoints. *)
Definition cleanup : M State unit :=
  s <- get;;
  match temp_file s with
  | Some name =>
      there <- path_exists name;;
      if there then unlink name else ret tt
  | None => ret tt
  end.

(** ** Transcription *)

(** The loop [for segment in segments:
    transcript_parts.append(segment.text.strip())] over the segments the
    sequence yields. *)
Fixpoint collect (segments : list Segment) (transcript_parts : list pystr)
    : list pystr :=
  match segments with
  | [] => transcript_parts
  | segment :: rest => collect rest (transcript_parts ++ [strip (text segment)])
  end.

(** Draining the lazy sequence. *)
Definition drain (segments : Segments) : M State (list pystr) :=
  let transcript_parts := collect (yields segments) [] in
  match fails_with segments with
  | None => ret transcript_parts
  | Some e => raise e
  end.

(** The part the three endpoints share: load the model, transcribe,
    collect the transcript, build the response. *)
Definition transcribe (path : pystr) (language : option pystr) (model : pystr)
    : M State TranscribeResponse :=
  whisper <- get_whisper_model (Some model);;
  r <- (fun s => (recognize env whisper path language s, s));;
  let '(segments, info) := r in
  (* Collect transcript *)
  transcript_parts <- drain segments;;
  let transcript := join (py " ") transcript_parts in
  ret {| success := true; transcript := Some transcript;
         language := Some (info_language info);
         language_probability := Some (info_language_probability info);
         duration := Some (info_duration info);
         model_used := model; error := None |}.

Definition failure (message model : pystr) : TranscribeResponse :=
  {| success := false; transcript := None; language := None;
     language_probability := None; duration := None;
     model_used := model; error := Some message |}.

(** The suffix of the temporary file of an upload. *)
Definition upload_suffix (file : UploadFile) : pystr :=
  match filename file with
  | Some (c :: r) => splitext_ext env (c :: r)
  | _ => py ".mp3"
  end.

(** Determine file extension *)
Definition url_suffix (content_type url : pystr) : pystr :=
  if contains (py "mp3") content_type || endswith url (py ".mp3")
  then py ".mp3"
  else if contains (py "wav") content_type || endswith url (py ".wav")
  then py ".wav"
  else if contains (py "m4a") content_type || endswith url (py ".m4a")
  then py ".m4a"
  else py ".mp3".

(** ** POST /transcribe *)
Definition transcribe_audio (file : UploadFile) (language : option pystr)
    (model : pystr) : M State TranscribeResponse :=
  set_temp_file None;;;
  try_finally
    (try_except
       ((* Save uploaded file *)
        let suffix := upload_suffix file in
        name <- NamedTemporaryFile suffix (py "/app/temp");;
        content <- lift (read file);;
        write_and_close name content;;;
        (* Transcribe *)
        transcribe name language model)
       [(any_Exception, fun e => ret (failure (exn_str e) model))])
    cleanup.

(** ** POST /transcribe/url *)
Definition transcribe_from_url (request : TranscribeUrlRequest)
    : M State TranscribeResponse :=
  set_temp_file None;;;
  try_finally
    (try_except
       ((* Download audio from URL *)
        response <- (fun s => (http_get env (url request) s, s));;
        match status_error response with
        | Some e => raise e
        | None => ret tt
        end;;;
        let content_type := default [] (content_type response) in
        let suffix := url_suffix content_type (url request) in
        (* Save to temp file *)
        name <- NamedTemporaryFile suffix (py "/app/temp");;
        write_and_close name (content response);;;
        (* Transcribe *)
        transcribe name (req_language request) (model request))
       [(is_HTTPError,
         fun e => ret (failure (py "Failed to download audio: " ++ exn_str e)
                               (model request)));
        (any_Exception, fun e => ret (failure (exn_str e) (model request)))])
    cleanup.

(** ** POST /transcribe/file-path *)
Definition transcribe_from_path (file_path : pystr) (language : option pystr)
    (model : pystr) : M State TranscribeResponse :=
  try_except
    (there <- path_exists file_path;;
     if negb there then ret (failure (py "File not found: " ++ file_path) model)
     else transcribe file_path language model)
    [(any_Exception, fun e => ret (failure (exn_str e) model))].

(** ** Points of a run, for stating properties *)

(** The state the [finally] block leaves. *)
Definition cleaned (s : State) : State :=
  match temp_file s with
  | Some name => with_files (delete name (files s)) s
  | None => s
  end.

(** The state once the temporary file [name] exists and is bound to the
    local variable, and once it holds [data]. *)
Definition created (name : pystr) (s : State) : State :=
  with_temp_file (Some name) (with_files (<[name := []]> (files s)) s).

Definition written (name data : pystr) (s : State) : State :=
  with_files (<[name := data]> (files s)) s.

(** The upload endpoint has saved the upload: from [s] it created the
    temporary file [name] and wrote the content read from [file]; [s2]
    is the state then. *)
Definition upload_saved (file : UploadFile) (s : State) (name : pystr)
    (s2 : State) : Prop :=
  let s0 := with_temp_file None s in
  mkstemp env (upload_suffix file) (py "/app/temp") s0 = Ok name ∧
  ∃ data,
    read file = Ok data ∧
    write_error env name data (created name s0) = None ∧
    s2 = written name data (created name s0).

(** The URL endpoint has saved the download. *)
Definition download_saved (request : TranscribeUrlRequest) (s : State)
    (name : pystr) (s2 : State) : Prop :=
  let s0 := with_temp_file None s in
  ∃ response,
    http_get env (url request) s0 = Ok response ∧
    status_error response = None ∧
    mkstemp env
      (url_suffix (default [] (content_type response)) (url request))
      (py "/app/temp") s0 = Ok name ∧
    write_error env name (content response) (created name s0) = None ∧
    s2 = written name (content response) (created name s0).

(** The recognition of [path] fails with [e]: the call raises it, or the
    sequence of segments raises it while it is drained. *)
Definition recognition_raises (whisper : WhisperModel) (path : pystr)
    (language : option pystr) (s : State) (e : exn) : Prop :=
  recognize env whisper path language s = Raise e ∨
  ∃ segments info,
    recognize env whisper path language s =
      Ok ({| yields := segments; fails_with := Some e |}, info).

(** The transcript assembled from segments: the texts, each trimmed,
    joined with single spaces. *)
Definition assembled (segments : list Segment) : pystr :=
  join (py " ") (map (fun segment => strip (text segment)) segments).

End Endpoints.

End Whisper.

(* ********************************************************************* *)
(** * Caption normalization                                               *)
(* ********************************************************************* *)

Module VttCleaner.

(** The maximal runs of elements that are not separators. *)
Fixpoint runs {A} (sep : A -> bool) (l : list A) : list (list A) :=
  match l with
  | [] => []
  | x :: l' =>
      if sep x then runs sep l'
      else
        match l' with
        | [] => [[x]]
        | y :: _ =>
            if sep y then [x] :: runs sep l'
            else
              match runs sep l' with
              | r :: rs => (x :: r) :: rs
              | [] => [[x]]
              end
        end
  end.

(** [s.split("\n")] *)
Fixpoint split_lines (s : pystr) : list pystr :=
  match s with
  | [] => [[]]
  | c :: s' =>
      if (c =? 10)%N then [] :: split_lines s'
      else
        match split_lines s' with
        | l :: ls => (c :: l) :: ls
        | [] => [[c]]
        end
  end.

Definition is_blank (line : pystr) : bool := forallb is_space line.

(** Cue blocks are delimited by blank lines. *)
Definition blocks (lines : list pystr) : list (list pystr) :=
  runs is_blank lines.

(** The timing line [HH:MM:SS.mmm --> HH:MM:SS.mmm] of a cue. *)
Definition is_timing (line : pystr) : bool := contains (py "-->") line.

(** The lines of a block that follow its timing line. *)
Fixpoint after_timing (block : list pystr) : option (list pystr) :=
  match block with
  | [] => None
  | line :: block' =>
      if is_timing line then Some block' else after_timing block'
  end.

(** The text lines of a cue block: what follows the timing line (the
    index before it is ignored).  A block without a timing line is a
    header or style block and has none. *)
Definition cue_text (block : list pystr) : list pystr :=
  match after_timing block with
  | Some text => filter (fun line => is_timing line = false) text
  | None => []
  end.

(** The cues of a document, in order, each as its text lines: the blocks
    with a timing line and one or more text lines. *)
Definition parse (document : pystr) : list (list pystr) :=
  filter (fun cue => cue ≠ []) (map cue_text (blocks (split_lines document))).

(** Removing the spans from [opening] to the next [closing]. *)
Fixpoint strip_span (opening closing : N) (inside : bool) (s : pystr) : pystr :=
  match s with
  | [] => []
  | c :: s' =>
      if inside then
        strip_span opening closing (negb (c =? closing)%N) s'
      else if (c =? opening)%N && existsb (N.eqb closing) s' then
        strip_span opening closing true s'
      else c :: strip_span opening closing false s'
  end.

(** Inline styling markers [<...>] and bracketed tags [[...]]. *)
Definition strip_markup (line : pystr) : pystr :=
  strip_span 91 93 false (strip_span 60 62 false line).

(** What a line adds to the previous cue, given the lines that cue
    shows: when it continues one of them, only the new text. *)
Fixpoint incremental (previous : list pystr) (line : pystr) : pystr :=
  match previous with
  | [] => line
  | p :: previous' =>
      match p, strip_prefix p line with
      | _ :: _, Some rest => rest
      | _, _ => incremental previous' line
      end
  end.

(** Rolling captions: each cue keeps what it adds to the visible text of
    the cue before it. *)
Fixpoint dedup (previous : list pystr) (cues : list (list pystr))
    : list (list pystr) :=
  match cues with
  | [] => []
  | cue :: cues' =>
      map (incremental (map strip_markup previous)) cue :: dedup cue cues'
  end.

(** Repeated whitespace collapsed: the words, joined by single spaces. *)
Definition collapse_whitespace (s : pystr) : pystr :=
  join (py " ") (runs is_space s).

(** The text that survives: of a cue-timed document, what its cues add
    one after the other; a text without any cue is not cue-timed and is
    taken as it is. *)
Definition surviving_text (document : pystr) : pystr :=
  match parse document with
  | [] => document
  | cues => join (py " ") (concat (dedup [] cues))
  end.

(** Modelled from the spec: [clean_vtt_content] of utils/vtt_cleaner.py,
    which the yt-dlp server imports and which is not among the sources.
    It follows section 4.3: parse the document into cues (header and
    style blocks and the index lines are ignored), keep of each cue what
    it adds to the previous one, strip bracketed tags and inline styling
    markers, join the surviving text with single spaces, collapse
    repeated whitespace.  The tags are stripped from the surviving text
    taken together, since a tag may start on one line and end on the
    next; and a text that holds no cue goes through the same steps as it
    is, which is how a plain string comes back unchanged. *)
Definition clean_vtt_content (vtt_content : pystr) : pystr :=
  collapse_whitespace (strip_markup (surviving_text vtt_content)).



(** A word: not empty and free of whitespace. *)
Definition word (w : pystr) : Prop :=
  w ≠ [] ∧ forallb (fun c => negb (is_space c)) w = true.

End VttCleaner.

(* ********************************************************************* *)
(** * Sample worlds                                                       *)
(* ********************************************************************* *)

(** Test doubles for the outside world, on which the endpoints are run. *)
Module Samples.

Definition video : pystr := py "dQw4w9WgXcQ".

Definition captions : pystr :=
  py "WEBVTT

00:00:00.000 --> 00:00:02.000
never gonna give you up
".

(** A yt-dlp that knows one video.  [manual] and [auto] tell whether the
    video has manual and automatic captions; with [slow] the fetch of the
    manual captions exceeds its timeout.  The metadata command prints a
    document and the audio command writes the mp3 file. *)
Definition yt_dlp (manual auto slow : bool) : YtDlp.Env :=
  {| YtDlp.run_process := fun cmd timeout s =>
       let fs := YtDlp.files s in
       match cmd with
       | [_; flag; _; language; _; _; _; _; output_template; _] =>
           let manual_run := bool_decide (flag = py "--write-sub") in
           if manual_run && slow then
             (Raise (Exn TimeoutExpired (py "Command timed out after 120 seconds")), fs)
           else if (manual_run && manual) || (negb manual_run && auto) then
             (Ok {| YtDlp.returncode := 0; YtDlp.stdout := []; YtDlp.stderr := [] |},
              <[YtDlp.vtt_path output_template language := captions]> fs)
           else
             (Ok {| YtDlp.returncode := 0; YtDlp.stdout := []; YtDlp.stderr := [] |}, fs)
       | [_; _; _; _; _; output; _] =>
           (Ok {| YtDlp.returncode := 0; YtDlp.stdout := []; YtDlp.stderr := [] |},
            <[YtDlp.replace (py "%(ext)s") (py "mp3") output := py "ID3"]> fs)
       | _ =>
           (Ok {| YtDlp.returncode := 0; YtDlp.stdout := py "{}"; YtDlp.stderr := [] |}, fs)
       end;
     YtDlp.json_title_duration := fun _ => Ok (Some (py "Never Gonna Give You Up"), Some 212%Z);
     YtDlp.mkdtemp := fun _ => Ok (py "/tmp/tmpk3x9");
     YtDlp.clean_vtt_content := strip |}.

Definition request : YtDlp.YouTubeRequest :=
  {| YtDlp.url := py "https://youtu.be/dQw4w9WgXcQ";
     YtDlp.req_language := py "en";
     YtDlp.prefer_manual := true |}.

Definition yt_start : YtDlp.State :=
  {| YtDlp.files := ∅; YtDlp.calls := [] |}.

(** The state of the yt-dlp server once the metadata command has run. *)
Definition yt_after_info : YtDlp.State :=
  YtDlp.ran (YtDlp.cmd_info (YtDlp.watch_url video)) 30 ∅ yt_start.

(** The state of the yt-dlp server holding the audio of the video. *)
Definition yt_cached : YtDlp.State :=
  {| YtDlp.files := {[ YtDlp.audio_output_path video := py "ID3" ]};
     YtDlp.calls := [] |}.

Definition segments : list Whisper.Segment :=
  [ {| Whisper.seg_start := 0%float; Whisper.seg_end := 2%float;
       Whisper.text := py " Never gonna give you up" |};
    {| Whisper.seg_start := 2%float; Whisper.seg_end := 4%float;
       Whisper.text := py " never gonna let you down " |} ].

Definition info : Whisper.TranscriptionInfo :=
  {| Whisper.info_language := py "en";
     Whisper.info_language_probability := 0.5%float;
     Whisper.info_duration := 4%float |}.

(** A whisper whose default size is "base".  With [fault] the
    recognition raises that exception. *)
Definition whisper (fault : option exn) : Whisper.Env :=
  {| Whisper.WHISPER_MODEL_SIZE := py "base";
     Whisper.load_error := fun _ _ => None;
     Whisper.recognize := fun _ _ _ _ =>
       match fault with
       | Some e => Raise e
       | None => Ok ({| Whisper.yields := segments; Whisper.fails_with := None |}, info)
       end;
     Whisper.splitext_ext := fun _ => py ".mp3";
     Whisper.mkstemp := fun suffix dir _ => Ok (dir ++ py "/tmpw7q2" ++ suffix);
     Whisper.write_error := fun _ _ _ => None;
     Whisper.http_get := fun _ _ =>
       Ok {| Whisper.status_error := None;
             Whisper.content_type := Some (py "audio/mpeg");
             Whisper.content := py "ID3" |} |}.

Definition upload : Whisper.UploadFile :=
  {| Whisper.filename := Some (py "talk.mp3"); Whisper.read := Ok (py "ID3") |}.

Definition url_request : Whisper.TranscribeUrlRequest :=
  {| Whisper.url := py "https://example.org/talk.mp3";
     Whisper.req_language := None;
     Whisper.model := py "base" |}.

(** A whisper server that has just started: no model loaded. *)
Definition whisper_start : Whisper.State :=
  {| Whisper.files := ∅; Whisper.whisper_model := None;
     Whisper.constructed := 0; Whisper.temp_file := None |}.

Definition temp_name : pystr := py "/app/temp/tmpw7q2.mp3".

(** The state once the upload is saved, and once the model is loaded. *)
Definition whisper_saved : Whisper.State :=
  Whisper.written temp_name (py "ID3")
    (Whisper.created temp_name (Whisper.with_temp_file None whisper_start)).

Definition base_model : Whisper.WhisperModel :=
  {| Whisper.instance := 0; Whisper.size := py "base" |}.

Definition whisper_loaded : Whisper.State :=
  Whisper.with_whisper_model base_model
    {| Whisper.files := Whisper.files whisper_saved;
       Whisper.whisper_model := None;
       Whisper.constructed := 1;
       Whisper.temp_file := Whisper.temp_file whisper_saved |}.

(** A caption document whose cue says what the format is called. *)
Definition about_webvtt : pystr :=
  py "WEBVTT

00:00:00.000 --> 00:00:02.000
WEBVTT is a caption format
".

End Samples.

(* ********************************************************************* *)
(** * The other endpoints                                                 *)
(* ********************************************************************* *)

(** ** yt-dlp server: health and video information *)

Module YtDlpInfo.

(** Whether eleven consecutive characters of [s] are in the class of
    identifiers. *)
Fixpoint has_token (s : pystr) : bool :=
  match YtDlp.match_id11 s with
  | Some _ => true
  | None =>
      match s with
      | [] => false
      | _ :: s' => has_token s'
      end
  end.

Record VideoInfo := {
  video_id : pystr;
  title : pystr;
  duration : Z;
  channel : pystr;
  upload_date : option pystr;
  has_manual_subs : bool;
  has_auto_subs : bool;
  available_languages : list pystr
}.

(** The document printed by [yt-dlp --dump-json] as a dictionary: the
    keys the endpoint reads, each absent or of the type [VideoInfo]
    declares for it; the two subtitle dictionaries as their sets of
    language keys. *)
Record Info := {
  get_title : option pystr;
  get_duration : option Z;
  get_channel : option pystr;
  get_upload_date : option pystr;
  get_subtitles : option (gset pystr);
  get_automatic_captions : option (gset pystr)
}.

(** The outcome of [json.loads]: a dictionary, or [json.JSONDecodeError]. *)
Inductive Loaded :=
| Parsed (info : Info)
| JSONDecodeError (e : exn).

(** The dictionary returned by [health_check]. *)
Record Health := {
  status : pystr;
  service : pystr;
  version : pystr;
  yt_dlp_version : pystr
}.

Section Endpoints.
Context (env : YtDlp.Env) (json_loads : pystr -> Loaded).
Local Open Scope py_scope.

(** ** GET /health *)
Definition health_check : M YtDlp.State Health :=
  (* Verify yt-dlp is available *)
  ytdlp_version <- try_except
    (result <- YtDlp.subprocess_run env [py "yt-dlp"; py "--version"] 10;;
     ret (if (YtDlp.returncode result =? 0)%Z
          then strip (YtDlp.stdout result)
          else py "unknown"))
    [(any_Exception, fun _ => ret (py "error"))];;
  ret {| status := py "ok"; service := py "yt-dlp-server";
         version := py "1.0.0"; yt_dlp_version := ytdlp_version |}.

(** [list(set(list(subtitles.keys()) + list(auto_captions.keys())))] *)
Definition languages (subtitles auto_captions : gset pystr) : list pystr :=
  elements (list_to_set (elements subtitles ++ elements auto_captions)
              : gset pystr).

(** ** GET /youtube/info *)
Definition get_video_info (url : pystr) : M YtDlp.State VideoInfo :=
  match YtDlp.extract_video_id url with
  | Raise e =>
      if is_ValueError e then raise (Exn (HTTPException 400) (exn_str e))
      else raise e
  | Ok video_id =>
      let cmd :=
        [ py "yt-dlp"; py "--dump-json"; py "--no-download";
          py "https://www.youtube.com/watch?v=" ++ video_id ] in
      try_except
        (result <- YtDlp.subprocess_run env cmd 60;;
         if negb (YtDlp.returncode result =? 0)%Z then
           raise (Exn (HTTPException 500)
                    (py "yt-dlp error: " ++ YtDlp.stderr result))
         else
           match json_loads (YtDlp.stdout result) with
           | JSONDecodeError _ =>
               (* except json.JSONDecodeError *)
               raise (Exn (HTTPException 500) (py "Failed to parse video info"))
           | Parsed info =>
               let subtitles := default ∅ (get_subtitles info) in
               let auto_captions := default ∅ (get_automatic_captions info) in
               ret {| video_id := video_id;
                      title := default (py "Unknown") (get_title info);
                      duration := default 0%Z (get_duration info);
                      channel := default (py "Unknown") (get_channel info);
                      upload_date := get_upload_date info;
                      has_manual_subs := bool_decide (0 < size subtitles);
                      has_auto_subs := bool_decide (0 < size auto_captions);
                      available_languages := languages subtitles auto_captions |}
           end)
        [(is_TimeoutExpired,
          fun _ => raise (Exn (HTTPException 504) (py "Timeout getting video info")))]
  end.

End Endpoints.

End YtDlpInfo.

(** ** whisper server: health *)

Module WhisperInfo.

(** The dictionary returned by [health_check]. *)
Record Health := {
  status : pystr;
  service : pystr;
  version : pystr;
  default_model : pystr;
  model_loaded : bool
}.

(** ** GET /health *)
Definition health_check (env : Whisper.Env) : M Whisper.State Health :=
  bind get (fun s =>
    ret {| status := py "ok"; service := py "whisper-server";
           version := py "1.0.0";
           default_model := Whisper.WHISPER_MODEL_SIZE env;
           model_loaded := bool_decide (Whisper.whisper_model s ≠ None) |}).

(** The size [get_whisper_model] constructs a model for:
    [model_size or WHISPER_MODEL_SIZE]. *)
Definition requested_size (env : Whisper.Env) (model_size : option pystr)
    : pystr :=
  match model_size with
  | Some (c :: r) => c :: r
  | _ => Whisper.WHISPER_MODEL_SIZE env
  end.

End WhisperInfo.

(** ** More sample worlds *)

Module MoreSamples.

(** The sample request, without the preference for manual captions. *)
Definition request_auto : YtDlp.YouTubeRequest :=
  {| YtDlp.url := py "https://youtu.be/dQw4w9WgXcQ";
     YtDlp.req_language := py "en";
     YtDlp.prefer_manual := false |}.

(** A yt-dlp whose metadata command exceeds its timeout; the video has
    both kinds of captions. *)
Definition yt_dlp_no_metadata : YtDlp.Env :=
  {| YtDlp.run_process := fun cmd timeout s =>
       match cmd with
       | [_; _; _; _] =>
           (Raise (Exn TimeoutExpired (py "Command timed out after 30 seconds")),
            YtDlp.files s)
       | _ => YtDlp.run_process (Samples.yt_dlp true true false) cmd timeout s
       end;
     YtDlp.json_title_duration :=
       YtDlp.json_title_duration (Samples.yt_dlp true true false);
     YtDlp.mkdtemp := YtDlp.mkdtemp (Samples.yt_dlp true true false);
     YtDlp.clean_vtt_content := strip |}.

(** A yt-dlp whose commands all exit with [code] and write nothing. *)
Definition yt_dlp_failing (code : Z) : YtDlp.Env :=
  {| YtDlp.run_process := fun cmd timeout s =>
       (Ok {| YtDlp.returncode := code; YtDlp.stdout := [];
              YtDlp.stderr := py "ERROR: Video unavailable" |},
        YtDlp.files s);
     YtDlp.json_title_duration := fun _ => Ok (None, None);
     YtDlp.mkdtemp := fun _ => Ok (py "/tmp/tmpk3x9");
     YtDlp.clean_vtt_content := strip |}.

(** A yt-dlp whose commands all exceed their timeout. *)
Definition yt_dlp_stalled : YtDlp.Env :=
  {| YtDlp.run_process := fun cmd timeout s =>
       (Raise (Exn TimeoutExpired (py "Command timed out after 300 seconds")),
        YtDlp.files s);
     YtDlp.json_title_duration := fun _ => Ok (None, None);
     YtDlp.mkdtemp := fun _ => Ok (py "/tmp/tmpk3x9");
     YtDlp.clean_vtt_content := strip |}.

(** What [json.loads] makes of the output of the sample yt-dlp: the
    document printed by the metadata command has a title and automatic
    captions in two languages; the empty output is not JSON. *)
Definition info : YtDlpInfo.Info :=
  {| YtDlpInfo.get_title := Some (py "Never Gonna Give You Up");
     YtDlpInfo.get_duration := Some 212%Z;
     YtDlpInfo.get_channel := None;
     YtDlpInfo.get_upload_date := None;
     YtDlpInfo.get_subtitles := None;
     YtDlpInfo.get_automatic_captions := Some {[ py "en"; py "it" ]} |}.

Definition json_loads (text : pystr) : YtDlpInfo.Loaded :=
  match text with
  | [] => YtDlpInfo.JSONDecodeError (Exn ValueError (py "Expecting value"))
  | _ => YtDlpInfo.Parsed info
  end.

(** A whisper that cannot construct any model. *)
Definition whisper_broken : Whisper.Env :=
  {| Whisper.WHISPER_MODEL_SIZE := py "base";
     Whisper.load_error := fun _ _ =>
       Some (Exn ValueError (py "Invalid model size"));
     Whisper.recognize := Whisper.recognize (Samples.whisper None);
     Whisper.splitext_ext := Whisper.splitext_ext (Samples.whisper None);
     Whisper.mkstemp := Whisper.mkstemp (Samples.whisper None);
     Whisper.write_error := Whisper.write_error (Samples.whisper None);
     Whisper.http_get := Whisper.http_get (Samples.whisper None) |}.

(** A whisper that cannot reach any URL. *)
Definition whisper_offline : Whisper.Env :=
  {| Whisper.WHISPER_MODEL_SIZE := py "base";
     Whisper.load_error := Whisper.load_error (Samples.whisper None);
     Whisper.recognize := Whisper.recognize (Samples.whisper None);
     Whisper.splitext_ext := Whisper.splitext_ext (Samples.whisper None);
     Whisper.mkstemp := Whisper.mkstemp (Samples.whisper None);
     Whisper.write_error := Whisper.write_error (Samples.whisper None);
     Whisper.http_get := fun _ _ =>
       Raise (Exn HTTPError (py "All connection attempts failed")) |}.

(** A whisper server with the default model loaded and the audio of the
    sample video in the cache. *)
Definition whisper_serving : Whisper.State :=
  {| Whisper.files := {[ py "/app/temp/dQw4w9WgXcQ.mp3" := py "ID3" ]};
     Whisper.whisper_model := Some Samples.base_model;
     Whisper.constructed := 1;
     Whisper.temp_file := None |}.

End MoreSamples.

(* ********************************************************************* *)
(** * Properties                                                          *)
(* ********************************************************************* *)

(** ** The monad *)

Section Monad.
Context {S A B : Type}.

Lemma bind_ok (m : M S A) (k : A → M S B) s a s' :
  m s = (Ok a, s') → bind m k s = k a s'.
Proof. unfold bind. by intros ->. Qed.

Lemma bind_raise (m : M S A) (k : A → M S B) s e s' :
  m s = (Raise e, s') → bind m k s = (Raise e, s').
Proof. unfold bind. by intros ->. Qed.

Lemma try_finally_ok (body : M S A) (final : M S unit) s r s' s'' :
  body s = (r, s') → final s' = (Ok tt, s'') →
  try_finally body final s = (r, s'').
Proof. unfold try_finally. by intros -> ->. Qed.

Lemma try_except_ok (body : M S A) clauses s a s' :
  body s = (Ok a, s') → try_except body clauses s = (Ok a, s').
Proof. unfold try_except. by intros ->. Qed.

Lemma try_except_raise (body : M S A) clauses s e s' :
  body s = (Raise e, s') →
  try_except body clauses s = dispatch clauses e s'.
Proof. unfold try_except. by intros ->. Qed.

End Monad.

(** ** Resolving a video identifier *)

Section Resolver.
Import YtDlp.

Lemma strip_prefix_nil s : strip_prefix [] s = Some s.
Proof. by destruct s. Qed.

Lemma strip_prefix_cons a lit b s :
  strip_prefix (a :: lit) (b :: s)
  = if N.eqb a b then strip_prefix lit s else None.
Proof. reflexivity. Qed.

Lemma strip_prefix_app lit s r : strip_prefix lit s = Some r → s = lit ++ r.
Proof.
  revert s. induction lit as [|a lit IH]; intros s.
  - rewrite strip_prefix_nil. by intros [= ->].
  - destruct s as [|b s]; [done|]. rewrite strip_prefix_cons.
    destruct (N.eqb_spec a b) as [->|]; [|done].
    intros H. apply IH in H. by rewrite H.
Qed.

Lemma strip_prefix_same lit r : strip_prefix lit (lit ++ r) = Some r.
Proof.
  induction lit as [|a lit IH]; [apply strip_prefix_nil|].
  cbn [app]. rewrite strip_prefix_cons. by rewrite N.eqb_refl.
Qed.

(** A literal against a text that is extended: it matches as before, or
    fails as before, or the text was a proper start of the literal. *)
Lemma strip_prefix_extend lit v y :
  match strip_prefix lit v with
  | Some r => strip_prefix lit (v ++ y) = Some (r ++ y)
  | None =>
      strip_prefix lit (v ++ y) = None ∨
      ∃ z, z ≠ [] ∧ lit = v ++ z ∧ strip_prefix lit (v ++ y) = strip_prefix z y
  end.
Proof.
  revert v. induction lit as [|a lit IH]; intros v.
  - by rewrite !strip_prefix_nil.
  - destruct v as [|b v].
    + right. exists (a :: lit). done.
    + cbn [app]. rewrite !strip_prefix_cons.
      destruct (N.eqb_spec a b) as [->|]; [|by left].
      specialize (IH v). destruct (strip_prefix lit v); [done|].
      destruct IH as [IH|(z & Hz & -> & IH)]; [by left|].
      right. by exists z.
Qed.

(** The last character of a marker. *)
Lemma marker_last lit :
  marker lit = true →
  length lit ≤ 11 ∧ ∃ l c, lit = l ++ [c] ∧ is_id_char c = false.
Proof.
  unfold marker. intros H. apply andb_prop in H as [Hlen H].
  apply Nat.leb_le in Hlen. split; [done|].
  destruct (last lit) as [c|] eqn:Hlast; [|done].
  apply last_Some in Hlast as [l ->].
  exists l, c. split; [done|]. by apply negb_true_iff.
Qed.

Lemma match_id11_app t suffix : token t → match_id11 (t ++ suffix) = Some t.
Proof.
  intros [Hlen Hid]. unfold match_id11.
  rewrite take_app_length' by done.
  rewrite Hlen, Hid. reflexivity.
Qed.

(** Text after a character outside the class does not help the group to
    match. *)
Lemma match_id11_extend r0 c y :
  is_id_char c = false →
  match_id11 (r0 ++ [c]) = None → match_id11 ((r0 ++ [c]) ++ y) = None.
Proof.
  intros Hc. unfold match_id11.
  destruct (decide (11 ≤ length (r0 ++ [c]))) as [Hlen|Hlen].
  - by rewrite (take_app_le (r0 ++ [c]) y).
  - intros _. rewrite (take_app_ge (r0 ++ [c]) y) by lia.
    rewrite !forallb_app. cbn. rewrite Hc.
    by rewrite andb_false_r, andb_false_l, andb_false_r.
Qed.

(** A literal holding a character outside the class does not match inside
    a run of class characters. *)
Lemma strip_prefix_outside lit s :
  forallb is_id_char s = true →
  forallb is_id_char lit = false →
  strip_prefix lit s = None.
Proof.
  intros Hs Hlit. destruct (strip_prefix lit s) as [r|] eqn:Hp; [|done].
  apply strip_prefix_app in Hp. rewrite Hp, forallb_app in Hs.
  apply andb_prop in Hs as [Hs _]. congruence.
Qed.

(** What is left of a marker does not match at the head of a token. *)
Lemma strip_prefix_token z0 c t rest :
  token t → is_id_char c = false → length (z0 ++ [c]) ≤ 11 →
  strip_prefix (z0 ++ [c]) (t ++ rest) = None.
Proof.
  intros [Hlen Hid] Hc Hz.
  destruct (strip_prefix _ _) as [r|] eqn:Hp; [|done].
  apply strip_prefix_app in Hp.
  apply (f_equal (take (length (z0 ++ [c])))) in Hp.
  rewrite take_app_le, take_app_length in Hp by lia.
  assert (forallb is_id_char (take (length (z0 ++ [c])) t) = true) as Htake.
  { apply forallb_forall. intros x Hx. rewrite forallb_forall in Hid.
    apply Hid. rewrite <- list_elem_of_In in *.
    by eapply subseteq_take. }
  rewrite Hp, forallb_app in Htake. cbn in Htake.
  rewrite Hc in Htake. by rewrite andb_false_r in Htake.
Qed.

Lemma marker_outside lit : marker lit = true → forallb is_id_char lit = false.
Proof.
  intros (_ & l & c & -> & Hc)%marker_last.
  rewrite forallb_app. cbn. by rewrite Hc, andb_false_r.
Qed.

(** One alternative at a position [v] that ends outside the class, once a
    token follows [v]: it still fails, unless the alternative is [v]
    itself, and then it captures the token. *)
Lemma alternative_extend lit v0 d t rest :
  token t → marker lit = true → is_id_char d = false →
  strip_prefix lit (v0 ++ [d]) ≫= match_id11 = None →
  strip_prefix lit ((v0 ++ [d]) ++ t ++ rest) ≫= match_id11 = None
  ∨ (strip_prefix lit ((v0 ++ [d]) ++ t ++ rest) ≫= match_id11 = Some t
     ∧ lit = v0 ++ [d]).
Proof.
  intros Ht Hlit Hd Hnone.
  pose proof (strip_prefix_extend lit (v0 ++ [d]) (t ++ rest)) as Hext.
  destruct (strip_prefix lit (v0 ++ [d])) as [r|] eqn:Hp.
  - rewrite Hext. cbn [mbind option_bind] in Hnone |- *.
    apply strip_prefix_app in Hp.
    destruct (last r) as [c|] eqn:Hlast.
    + apply last_Some in Hlast as [r0 ->].
      rewrite app_assoc in Hp. apply app_inj_tail in Hp as [_ <-].
      left. by apply match_id11_extend.
    + apply last_None in Hlast as ->. rewrite app_nil_r in Hp.
      right. cbn [app]. by rewrite match_id11_app.
  - destruct Hext as [->|(z & Hz & -> & ->)]; [by left|].
    left. apply marker_last in Hlit as (Hlen & l & c & Hl & Hc).
    destruct (last z) as [c'|] eqn:Hlast;
      [|by apply last_None in Hlast].
    apply last_Some in Hlast as [z0 ->].
    rewrite app_assoc in Hl. apply app_inj_tail in Hl as [_ ->].
    rewrite strip_prefix_token; [done..|].
    rewrite !length_app in *. lia.
Qed.

Lemma match_alts_extend lits v0 d t rest :
  token t → Forall (λ lit, marker lit = true) lits → is_id_char d = false →
  match_alts lits (v0 ++ [d]) = None →
  match_alts lits ((v0 ++ [d]) ++ t ++ rest) = None
  ∨ (match_alts lits ((v0 ++ [d]) ++ t ++ rest) = Some t ∧ v0 ++ [d] ∈ lits).
Proof.
  intros Ht Hlits Hd. induction Hlits as [|lit lits Hlit _ IH]; [by left|].
  cbn [match_alts].
  destruct (strip_prefix lit (v0 ++ [d]) ≫= match_id11) eqn:Hhere; [done|].
  intros Hnone.
  destruct (alternative_extend lit v0 d t rest Ht Hlit Hd Hhere)
    as [->|[-> ->]].
  - destruct (IH Hnone) as [?|[? ?]]; [by left|].
    right. split; [done|]. by apply list_elem_of_further.
  - right. split; [done|]. apply list_elem_of_here.
Qed.

Lemma match_alts_elem_of lits lit s g :
  lit ∈ lits → strip_prefix lit s ≫= match_id11 = Some g →
  match_alts lits s ≠ None.
Proof.
  induction 1 as [lit lits|lit lit' lits _ IH]; cbn [match_alts].
  - by intros ->.
  - intros H. destruct (strip_prefix lit' s ≫= match_id11); [done|]. auto.
Qed.

Lemma search_alts_None lits s :
  search_alts lits s = None → match_alts lits s = None.
Proof. destruct s; cbn [search_alts]; by destruct (match_alts lits _). Qed.

Lemma search_alts_cons lits c s :
  search_alts lits (c :: s)
  = match match_alts lits (c :: s) with
    | Some g => Some g
    | None => search_alts lits s
    end.
Proof. reflexivity. Qed.

Lemma match_alts_outside lits s :
  forallb is_id_char s = true →
  Forall (λ lit, marker lit = true) lits →
  match_alts lits s = None.
Proof.
  intros Hs. induction 1 as [|lit lits Hlit _ IH]; [reflexivity|].
  cbn. rewrite strip_prefix_outside by auto using marker_outside. exact IH.
Qed.

(** Inside a token no marker is found. *)
Lemma search_alts_outside lits s :
  forallb is_id_char s = true →
  Forall (λ lit, marker lit = true) lits →
  search_alts lits s = None.
Proof.
  intros Hs Hlits. induction s as [|c s IH].
  - cbn. by rewrite match_alts_outside.
  - rewrite search_alts_cons, match_alts_outside by done.
    cbn in Hs. apply andb_prop in Hs as [_ Hs]. auto.
Qed.

(** The leftmost match: when nothing matches up to a marker, the search
    finds the token that follows the marker. *)
Lemma search_alts_leftmost lits lit before t rest :
  token t → Forall (λ lit, marker lit = true) lits → lit ∈ lits →
  search_alts lits (before ++ lit) = None →
  search_alts lits (before ++ lit ++ t ++ rest) = Some t.
Proof.
  intros Ht Hlits Hin.
  assert (marker lit = true) as Hlit
    by (rewrite Forall_forall in Hlits; auto).
  apply marker_last in Hlit as (_ & l & d & -> & Hd).
  induction before as [|c before IH]; intros Hnone.
  - cbn [app] in *. apply search_alts_None in Hnone.
    destruct (match_alts_extend lits l d t rest Ht Hlits Hd Hnone)
      as [Hm|[Hm _]].
    + exfalso. eapply match_alts_elem_of; [exact Hin| |exact Hm].
      rewrite strip_prefix_same. cbn. by apply match_id11_app.
    + destruct ((l ++ [d]) ++ t ++ rest); cbn [search_alts]; by rewrite Hm.
  - cbn [app] in *. rewrite search_alts_cons in Hnone.
    destruct (match_alts lits (c :: before ++ l ++ [d])) eqn:Hhere; [done|].
    rewrite search_alts_cons.
    change (c :: before ++ l ++ [d]) with ((c :: before) ++ l ++ [d]) in Hhere.
    rewrite app_assoc in Hhere.
    assert ((((c :: before) ++ l) ++ [d]) ++ t ++ rest
            = c :: before ++ (l ++ [d]) ++ t ++ rest) as Heq
      by (cbn [app]; by rewrite <- !app_assoc).
    destruct (match_alts_extend lits _ d t rest Ht Hlits Hd Hhere)
      as [Hm|[Hm _]]; rewrite Heq in Hm; rewrite Hm; auto.
Qed.

(** No match appears when a token is appended to a text that ends
    outside the class and does not end with a marker. *)
Lemma search_alts_nothing lits v t :
  token t → Forall (λ lit, marker lit = true) lits →
  (v = [] ∨ ∃ v0 d, v = v0 ++ [d] ∧ is_id_char d = false) →
  (∀ lit, lit ∈ lits → ¬ lit `suffix_of` v) →
  search_alts lits v = None →
  search_alts lits (v ++ t) = None.
Proof.
  intros Ht Hlits. induction v as [|c v IH]; intros Hend Hsuffix Hnone.
  - apply search_alts_outside; [apply Ht|done].
  - destruct Hend as [|(v0 & d & Hv & Hd)]; [done|].
    rewrite search_alts_cons in Hnone.
    destruct (match_alts lits (c :: v)) eqn:Hhere; [done|].
    cbn [app]. rewrite search_alts_cons.
    rewrite Hv in Hhere.
    destruct (match_alts_extend lits v0 d t [] Ht Hlits Hd Hhere)
      as [Hm|[_ Hin]].
    + rewrite app_nil_r, <- Hv in Hm. cbn [app] in Hm. rewrite Hm.
      apply IH;
        [|intros lit Hin Hs; apply (Hsuffix lit Hin); by apply suffix_cons_r
         |done].
      destruct v0 as [|c' v0]; [left|right].
      * by injection Hv as _ ->.
      * injection Hv as _ ->. eauto.
    + exfalso. apply (Hsuffix _ Hin). by rewrite Hv.
Qed.

Lemma url_markers_are_markers : Forall (λ lit, marker lit = true) url_markers.
Proof. repeat constructor. Qed.

Lemma embed_markers_are_markers :
  Forall (λ lit, marker lit = true) embed_markers.
Proof. repeat constructor. Qed.

(** No text that ends with [embed/] ends with a marker of the first
    pattern. *)
Lemma embed_ends_with_no_url_marker before lit :
  lit ∈ url_markers → ¬ lit `suffix_of` (before ++ py "embed/").
Proof.
  intros Hin [k Hk]. apply (f_equal (@rev N)) in Hk.
  rewrite !rev_app_distr in Hk.
  unfold url_markers in Hin.
  repeat (apply elem_of_cons in Hin as [->|Hin]);
    [..|by apply elem_of_nil in Hin];
    vm_compute in Hk; discriminate.
Qed.

Lemma search_bare_token t : token t → search_bare t = Some t.
Proof.
  intros Ht. unfold search_bare.
  rewrite <- (app_nil_r t) at 1. rewrite match_id11_app by done.
  destruct Ht as [Hlen _]. by rewrite drop_ge by lia.
Qed.

(** The first pattern: a marker followed by the token, with no match
    before the marker. *)
Lemma url_marker_form t lit before rest :
  token t → lit ∈ url_markers →
  search_alts url_markers (before ++ lit) = None →
  extract_video_id (before ++ lit ++ t ++ rest) = Ok t.
Proof.
  intros Ht Hin Hnone. unfold extract_video_id, patterns, first_match.
  by rewrite (search_alts_leftmost url_markers lit before t rest Ht
                url_markers_are_markers Hin Hnone).
Qed.

(** The second pattern: [embed/] followed by the token at the end, with
    no match of either pattern before. *)
Lemma embed_marker_form t before :
  token t →
  search_alts url_markers (before ++ py "embed/") = None →
  search_alts embed_markers (before ++ py "embed/") = None →
  extract_video_id (before ++ py "embed/" ++ t) = Ok t.
Proof.
  intros Ht Hurl Hembed. unfold extract_video_id, patterns, first_match.
  rewrite app_assoc.
  rewrite (search_alts_nothing url_markers (before ++ py "embed/") t Ht
             url_markers_are_markers); [| |apply embed_ends_with_no_url_marker|done].
  - rewrite <- app_assoc, <- (app_nil_r t) at 1.
    by rewrite (search_alts_leftmost embed_markers (py "embed/") before t []
                  Ht embed_markers_are_markers (list_elem_of_here _ _) Hembed).
  - right. exists (before ++ py "embed"), 47%N. split; [|done].
    by rewrite <- app_assoc.
Qed.

(** The third pattern: the token alone. *)
Lemma bare_form t : token t → extract_video_id t = Ok t.
Proof.
  intros Ht. unfold extract_video_id, patterns, first_match.
  rewrite !search_alts_outside;
    [|apply Ht|apply embed_markers_are_markers
     |apply Ht|apply url_markers_are_markers].
  by rewrite search_bare_token.
Qed.

End Resolver.

(** ** The transcript endpoint of the yt-dlp server *)

Section Captions.
Import YtDlp.
Context (env : Env).

Lemma subprocess_run_eq cmd timeout s r fs :
  run_process env cmd timeout s = (r, fs) →
  subprocess_run env cmd timeout s = (r, ran cmd timeout fs s).
Proof. unfold subprocess_run. by intros ->. Qed.

(** Fetching the metadata never raises. *)
Lemma get_title_duration_total video_url s :
  ∃ meta s', get_title_duration env video_url s = (Ok meta, s').
Proof.
  unfold get_title_duration, try_except, bind, subprocess_run.
  destruct (run_process env _ _ s) as [[cp|e] fs]; cbn; [|eauto].
  destruct (returncode cp =? 0)%Z; cbn; [|eauto].
  unfold lift. destruct (json_title_duration env _); cbn; eauto.
Qed.

Lemma path_exists_eq p (s : State) :
  path_exists p s = (Ok (bool_decide (is_Some (files s !! p))), s).
Proof. reflexivity. Qed.

Lemma rmtree_eq dir s : ∃ s', rmtree dir s = (Ok tt, s').
Proof. unfold rmtree, modify. eauto. Qed.

Lemma read_text_present p (s : State) c :
  files s !! p = Some c → read_text p s = (Ok c, s).
Proof. unfold read_text. by intros ->. Qed.

Ltac enter_captions Hreach :=
  destruct Hreach as (Hid & Hmeta & Hdir);
  unfold extract_youtube_transcript; rewrite Hid;
  erewrite bind_ok by exact Hmeta; cbv beta iota;
  erewrite bind_ok by (rewrite Hdir; reflexivity).

(** C2: with [prefer_manual], a manual fetch that completes without
    producing the caption file falls through; when the auto fetch then
    produces the file, the response is a success whose source is
    "auto-generated" and whose transcript is the cleaned content of that
    file. *)
Theorem manual_absent_auto_present
    request s video_id title duration s1 temp_dir
    manual fs1 auto fs2 vtt_content :
  let video_url := watch_url video_id in
  let output_template := path_join temp_dir (py "subs") in
  let vtt_file := vtt_path output_template (req_language request) in
  let cmd_manual :=
    cmd_subs (py "--write-sub") (req_language request) output_template video_url in
  let cmd_auto :=
    cmd_subs (py "--write-auto-sub") (req_language request) output_template video_url in
  prefer_manual request = true →
  reaches_captions env request s video_id title duration s1 temp_dir →
  run_process env cmd_manual 120 s1 = (Ok manual, fs1) →
  fs1 !! vtt_file = None →
  run_process env cmd_auto 120 (ran cmd_manual 120 fs1 s1) = (Ok auto, fs2) →
  fs2 !! vtt_file = Some vtt_content →
  (extract_youtube_transcript env request s).1 =
    Ok {| success := true; video_id := video_id; title := title;
          transcript := Some (clean_vtt_content env vtt_content);
          source := Some (py "auto-generated");
          language := req_language request; duration := duration;
          error := None |}.
Proof.
  intros video_url output_template vtt_file cmd_manual cmd_auto
    Hpref Hreach Hmanual Hnone Hauto Hsome.
  enter_captions Hreach.
  destruct (rmtree_eq temp_dir
    (ran cmd_auto 120 fs2 (ran cmd_manual 120 fs1 s1))) as [s' Hrm].
  erewrite try_finally_ok; [reflexivity| |exact Hrm].
  rewrite Hpref.
  erewrite bind_ok by (apply subprocess_run_eq, Hmanual).
  erewrite bind_ok by apply path_exists_eq.
  cbn [files ran]. fold output_template vtt_file. rewrite Hnone.
  rewrite bool_decide_eq_false_2 by (by intros [? ?]).
  erewrite bind_ok by (apply subprocess_run_eq, Hauto).
  erewrite bind_ok by apply path_exists_eq.
  cbn [files ran]. rewrite Hsome.
  rewrite bool_decide_eq_true_2 by eauto.
  erewrite bind_ok by (apply read_text_present; exact Hsome).
  reflexivity.
Qed.

(** C3: when neither the manual nor the auto fetch produces the caption
    file, the response is a failure whose error tells to use the whisper
    server for audio transcription. *)
Theorem both_absent_suggests_whisper
    request s video_id title duration s1 temp_dir manual fs1 auto fs2 :
  let video_url := watch_url video_id in
  let output_template := path_join temp_dir (py "subs") in
  let vtt_file := vtt_path output_template (req_language request) in
  let cmd_manual :=
    cmd_subs (py "--write-sub") (req_language request) output_template video_url in
  let cmd_auto :=
    cmd_subs (py "--write-auto-sub") (req_language request) output_template video_url in
  prefer_manual request = true →
  reaches_captions env request s video_id title duration s1 temp_dir →
  run_process env cmd_manual 120 s1 = (Ok manual, fs1) →
  fs1 !! vtt_file = None →
  run_process env cmd_auto 120 (ran cmd_manual 120 fs1 s1) = (Ok auto, fs2) →
  fs2 !! vtt_file = None →
  (extract_youtube_transcript env request s).1 =
    Ok {| success := false; video_id := video_id; title := title;
          transcript := None; source := None;
          language := req_language request; duration := duration;
          error := Some no_subtitles |}
  ∧ contains (py "Use whisper-server for audio transcription") no_subtitles = true.
Proof.
  intros video_url output_template vtt_file cmd_manual cmd_auto
    Hpref Hreach Hmanual Hnone Hauto Hnone'.
  split; [|by vm_compute].
  enter_captions Hreach.
  destruct (rmtree_eq temp_dir
    (ran cmd_auto 120 fs2 (ran cmd_manual 120 fs1 s1))) as [s' Hrm].
  erewrite try_finally_ok; [reflexivity| |exact Hrm].
  rewrite Hpref.
  erewrite bind_ok by (apply subprocess_run_eq, Hmanual).
  erewrite bind_ok by apply path_exists_eq.
  cbn [files ran]. fold output_template vtt_file. rewrite Hnone.
  rewrite bool_decide_eq_false_2 by (by intros [? ?]).
  erewrite bind_ok by (apply subprocess_run_eq, Hauto).
  erewrite bind_ok by apply path_exists_eq.
  cbn [files ran]. rewrite Hnone'.
  rewrite bool_decide_eq_false_2 by (by intros [? ?]).
  reflexivity.
Qed.

(** Without [prefer_manual] only the auto fetch is attempted; when it
    produces no file the response is the same failure. *)
Lemma auto_absent_suggests_whisper
    request s video_id title duration s1 temp_dir auto fs2 :
  let video_url := watch_url video_id in
  let output_template := path_join temp_dir (py "subs") in
  let vtt_file := vtt_path output_template (req_language request) in
  let cmd_auto :=
    cmd_subs (py "--write-auto-sub") (req_language request) output_template video_url in
  prefer_manual request = false →
  reaches_captions env request s video_id title duration s1 temp_dir →
  run_process env cmd_auto 120 s1 = (Ok auto, fs2) →
  fs2 !! vtt_file = None →
  (extract_youtube_transcript env request s).1 =
    Ok {| success := false; video_id := video_id; title := title;
          transcript := None; source := None;
          language := req_language request; duration := duration;
          error := Some no_subtitles |}.
Proof.
  intros video_url output_template vtt_file cmd_auto
    Hpref Hreach Hauto Hnone.
  enter_captions Hreach.
  destruct (rmtree_eq temp_dir (ran cmd_auto 120 fs2 s1)) as [s' Hrm].
  erewrite try_finally_ok; [reflexivity| |exact Hrm].
  rewrite Hpref.
  erewrite bind_ok by (apply subprocess_run_eq, Hauto).
  erewrite bind_ok by apply path_exists_eq.
  cbn [files ran]. fold output_template vtt_file. rewrite Hnone.
  rewrite bool_decide_eq_false_2 by (by intros [? ?]).
  reflexivity.
Qed.

(** An exception raised by the manual caption fetch (a timeout, say) is
    not caught: the endpoint raises it. *)
Lemma manual_fetch_failure_propagates
    request s video_id title duration s1 temp_dir e fs1 :
  let video_url := watch_url video_id in
  let output_template := path_join temp_dir (py "subs") in
  let cmd_manual :=
    cmd_subs (py "--write-sub") (req_language request) output_template video_url in
  prefer_manual request = true →
  reaches_captions env request s video_id title duration s1 temp_dir →
  run_process env cmd_manual 120 s1 = (Raise e, fs1) →
  (extract_youtube_transcript env request s).1 = Raise e.
Proof.
  intros video_url output_template cmd_manual Hpref Hreach Hmanual.
  enter_captions Hreach.
  destruct (rmtree_eq temp_dir (ran cmd_manual 120 fs1 s1)) as [s' Hrm].
  erewrite try_finally_ok; [reflexivity| |exact Hrm].
  rewrite Hpref.
  erewrite bind_raise by (apply subprocess_run_eq, Hmanual).
  reflexivity.
Qed.

End Captions.

(** ** The audio endpoint of the yt-dlp server *)

Section Audio.
Import YtDlp.
Context (env : Env).

(** C6: the audio of a video lives at one path determined by its
    identifier.  When a file is there the endpoint returns that path with
    [cached = True] and runs no command (the state, with its log of
    commands, is unchanged).  Otherwise it runs the download once, with a
    timeout of 300 seconds, and when that exits with code 0 and the file
    is there it returns the same path with [cached = False]. *)
Theorem audio_cache_hit_and_miss url s video_id :
  extract_video_id url = Ok video_id →
  let output_path := audio_output_path video_id in
  let cmd := cmd_audio output_path (watch_url video_id) in
  (is_Some (files s !! output_path) →
   download_youtube_audio env url s =
     (Ok {| audio_success := true; audio_path := output_path;
            audio_video_id := video_id; cached := true |}, s))
  ∧
  (files s !! output_path = None →
   ∀ result fs,
     run_process env cmd 300 s = (Ok result, fs) →
     returncode result = 0%Z →
     is_Some (fs !! output_path) →
     download_youtube_audio env url s =
       (Ok {| audio_success := true; audio_path := output_path;
              audio_video_id := video_id; cached := false |},
        {| files := fs; calls := calls s ++ [(cmd, 300%N)] |})).
Proof.
  intros Hid output_path cmd. unfold download_youtube_audio. rewrite Hid.
  fold output_path. split.
  - intros Hhit.
    erewrite bind_ok by apply path_exists_eq.
    by rewrite bool_decide_eq_true_2.
  - intros Hmiss result fs Hrun Hcode Hthere.
    erewrite bind_ok by apply path_exists_eq.
    rewrite Hmiss, bool_decide_eq_false_2 by (by intros [? ?]).
    fold cmd. erewrite try_except_ok; [reflexivity|].
    erewrite bind_ok by (apply subprocess_run_eq, Hrun).
    rewrite Hcode. cbn [Z.eqb negb].
    erewrite bind_ok by apply path_exists_eq.
    cbn [files ran]. by rewrite bool_decide_eq_true_2.
Qed.

(** On a miss, a download that times out becomes the HTTP error 504. *)
Lemma audio_timeout url s video_id e fs :
  extract_video_id url = Ok video_id →
  let output_path := audio_output_path video_id in
  let cmd := cmd_audio output_path (watch_url video_id) in
  files s !! output_path = None →
  run_process env cmd 300 s = (Raise e, fs) →
  exn_cls e = TimeoutExpired →
  (download_youtube_audio env url s).1 =
    Raise (Exn (HTTPException 504) (py "Timeout downloading audio")).
Proof.
  intros Hid output_path cmd Hmiss Hrun Hcls.
  unfold download_youtube_audio. rewrite Hid. fold output_path.
  erewrite bind_ok by apply path_exists_eq.
  rewrite Hmiss, bool_decide_eq_false_2 by (by intros [? ?]).
  fold cmd. erewrite try_except_raise
    by (erewrite bind_raise by (apply subprocess_run_eq, Hrun); reflexivity).
  cbn [dispatch]. unfold is_TimeoutExpired. by rewrite Hcls.
Qed.

End Audio.

(** ** Trimming and joining *)

Section Trimming.

Lemma lstrip_suffix s : ∃ l, s = l ++ lstrip s.
Proof.
  induction s as [|c s [l IH]]; [by exists []|].
  cbn. destruct (is_space c); [|by exists []].
  exists (c :: l). cbn. by rewrite <- IH.
Qed.

Lemma lstrip_head s c r : lstrip s = c :: r → is_space c = false.
Proof.
  induction s as [|a s IH]; [done|].
  cbn. destruct (is_space a) eqn:Ha; [done|].
  intros [= <- _]. done.
Qed.

Lemma rstrip_prefix s : ∃ l, s = rstrip s ++ l.
Proof.
  unfold rstrip. destruct (lstrip_suffix (rev s)) as [l Hl].
  exists (rev l). rewrite <- rev_app_distr, <- Hl. by rewrite rev_involutive.
Qed.

Lemma rstrip_last s r c : rstrip s = r ++ [c] → is_space c = false.
Proof.
  unfold rstrip. intros H.
  apply (f_equal (@rev N)) in H.
  rewrite rev_involutive, rev_app_distr in H. cbn in H.
  by eapply lstrip_head.
Qed.

(** A trimmed text does not start with whitespace. *)
Lemma strip_head s c r : strip s = c :: r → is_space c = false.
Proof.
  unfold strip. intros H.
  destruct (rstrip_prefix (lstrip s)) as [l Hl].
  rewrite H in Hl. cbn in Hl. by eapply lstrip_head.
Qed.

(** A trimmed text does not end with whitespace. *)
Lemma strip_last s r c : strip s = r ++ [c] → is_space c = false.
Proof. unfold strip. apply rstrip_last. Qed.

Lemma collect_app segments parts :
  Whisper.collect segments parts =
  parts ++ map (λ segment, strip (Whisper.text segment)) segments.
Proof.
  revert parts. induction segments as [|seg segments IH]; intros parts; cbn.
  - by rewrite app_nil_r.
  - by rewrite IH, <- app_assoc.
Qed.

End Trimming.

(** ** The whisper server: loading models *)

Section Models.
Import Whisper.
Context (env : Env).

Lemma new_WhisperModel_frame size s r s' :
  new_WhisperModel env size s = (r, s') →
  files s' = files s ∧ temp_file s' = temp_file s ∧
  whisper_model s' = whisper_model s.
Proof.
  unfold new_WhisperModel. destruct (load_error env size s).
  - by intros [= _ <-].
  - by intros [= _ <-].
Qed.

(** Loading a model touches neither the files nor the local variable. *)
Lemma get_whisper_model_frame model_size s r s' :
  get_whisper_model env model_size s = (r, s') →
  files s' = files s ∧ temp_file s' = temp_file s.
Proof.
  unfold get_whisper_model, bind, get.
  destruct (_ && _ && _).
  - intros H. apply new_WhisperModel_frame in H. tauto.
  - destruct (whisper_model s) eqn:Hm.
    + by intros [= _ <-].
    + destruct (new_WhisperModel env _ s) as [[m|e] s1] eqn:Hnew.
      * apply new_WhisperModel_frame in Hnew as (? & ? & _).
        unfold set_whisper_model, modify, ret. by intros [= _ <-].
      * apply new_WhisperModel_frame in Hnew as (? & ? & _).
        by intros [= _ <-].
Qed.

(** Once the global holds a model, a request for another size gets an
    object of its own and leaves the global as it is. *)
Lemma get_whisper_model_other_size model_size c r s m0 :
  whisper_model s = Some m0 →
  model_size = c :: r →
  model_size ≠ WHISPER_MODEL_SIZE env →
  load_error env model_size s = None →
  ∃ s',
    get_whisper_model env (Some model_size) s =
      (Ok {| instance := constructed s; size := model_size |}, s') ∧
    whisper_model s' = Some m0.
Proof.
  intros Hm -> Hne Hload. unfold get_whisper_model, bind, get.
  rewrite Hm. cbn [truthy].
  rewrite bool_decide_eq_true_2 by done.
  rewrite bool_decide_eq_true_2 by congruence.
  cbn [andb]. unfold new_WhisperModel. rewrite Hload.
  eexists. split; [reflexivity|]. done.
Qed.

(** Once the global holds a model, it is what every request for the
    default size (or for no size) gets, and the state does not change:
    the global is assigned at most once. *)
Lemma get_whisper_model_default s m0 :
  whisper_model s = Some m0 →
  get_whisper_model env (Some (WHISPER_MODEL_SIZE env)) s = (Ok m0, s) ∧
  get_whisper_model env None s = (Ok m0, s).
Proof.
  intros Hm. unfold get_whisper_model, bind, get. rewrite Hm.
  rewrite (bool_decide_eq_false_2 (Some _ ≠ Some _)) by (intros H; by apply H).
  rewrite andb_false_r. cbn [truthy andb]. rewrite andb_false_r. done.
Qed.

(** While the global is empty, a request for another size fills it with a
    model of that size. *)
Lemma get_whisper_model_first_other_size model_size c r s :
  whisper_model s = None →
  model_size = c :: r →
  load_error env model_size s = None →
  ∃ s',
    get_whisper_model env (Some model_size) s =
      (Ok {| instance := constructed s; size := model_size |}, s') ∧
    whisper_model s' = Some {| instance := constructed s; size := model_size |}.
Proof.
  intros Hm -> Hload. unfold get_whisper_model, bind, get.
  rewrite Hm. rewrite (bool_decide_eq_false_2 (None ≠ None)) by (intros H; by apply H).
  cbn [andb]. unfold new_WhisperModel. rewrite Hload.
  eexists. split; [reflexivity|]. done.
Qed.

End Models.

(** ** The whisper server: transcription endpoints *)

Section Transcription.
Import Whisper.
Context (env : Env).

Lemma with_files_same s : with_files (files s) s = s.
Proof. by destruct s. Qed.

(** The [finally] block never raises and leaves the temporary file
    absent. *)
Lemma cleanup_eq s : cleanup s = (Ok tt, cleaned s).
Proof.
  unfold cleanup, cleaned, bind, get, path_exists.
  destruct (temp_file s) as [name|]; [|done].
  destruct (files s !! name) as [c|] eqn:Hf.
  - rewrite bool_decide_eq_true_2 by eauto.
    unfold unlink, bind, get. by rewrite Hf.
  - rewrite bool_decide_eq_false_2 by (by intros [? ?]).
    by rewrite delete_id, with_files_same.
Qed.

(** A body guarded by handlers that turn every exception into a response,
    followed by the [finally] block. *)
Lemma guarded_eq (body : M State TranscribeResponse) clauses f s :
  (∀ e s', dispatch clauses e s' = (Ok (f e), s')) →
  try_finally (try_except body clauses) cleanup s =
    (match (body s).1 with Ok a => Ok a | Raise e => Ok (f e) end,
     cleaned (body s).2).
Proof.
  intros Hh. unfold try_finally, try_except.
  destruct (body s) as [[a|e] s']; cbn [fst snd].
  - by rewrite cleanup_eq.
  - by rewrite Hh, cleanup_eq.
Qed.

Lemma transcribe_frame path language model s r s' :
  transcribe env path language model s = (r, s') →
  files s' = files s ∧ temp_file s' = temp_file s.
Proof.
  unfold transcribe, bind.
  destruct (get_whisper_model env (Some model) s) as [[w|e] s1] eqn:Hw;
    apply get_whisper_model_frame in Hw.
  - destruct (recognize env w path language s1) as [[g i]|e].
    + unfold drain. destruct (fails_with g); unfold ret, raise;
        by intros [= _ <-].
    + by intros [= _ <-].
  - by intros [= _ <-].
Qed.

Lemma transcribe_ok path language model s whisper s1 segments info :
  get_whisper_model env (Some model) s = (Ok whisper, s1) →
  recognize env whisper path language s1 =
    Ok ({| yields := segments; fails_with := None |}, info) →
  transcribe env path language model s =
    (Ok {| success := true; transcript := Some (assembled segments);
           language := Some (info_language info);
           language_probability := Some (info_language_probability info);
           duration := Some (info_duration info);
           model_used := model; error := None |}, s1).
Proof.
  intros Hw Hr. unfold transcribe.
  erewrite bind_ok by exact Hw.
  erewrite bind_ok by (rewrite Hr; reflexivity).
  unfold drain, bind, ret. cbn [yields fails_with].
  unfold assembled. by rewrite collect_app.
Qed.

Lemma transcribe_raises path language model s whisper s1 e :
  get_whisper_model env (Some model) s = (Ok whisper, s1) →
  recognition_raises env whisper path language s1 e →
  transcribe env path language model s = (Raise e, s1).
Proof.
  intros Hw [Hr|(segments & info & Hr)]; unfold transcribe;
    erewrite bind_ok by exact Hw.
  - erewrite bind_raise by (rewrite Hr; reflexivity). done.
  - erewrite bind_ok by (rewrite Hr; reflexivity). done.
Qed.

(** The body of the upload endpoint up to the transcription. *)
Lemma upload_saved_run file language model s name s2 :
  upload_saved env file s name s2 →
  (name <- NamedTemporaryFile env (upload_suffix env file) (py "/app/temp");;
   content <- lift (read file);;
   write_and_close env name content;;;
   transcribe env name language model)%py (with_temp_file None s)
  = transcribe env name language model s2.
Proof.
  intros (Hmk & data & Hread & Hwrite & ->).
  unfold NamedTemporaryFile, write_and_close, bind, get, lift, ret,
    set_files, set_temp_file, modify.
  rewrite Hmk, Hread. cbv beta iota.
  fold (created name (with_temp_file None s)).
  rewrite Hwrite. reflexivity.
Qed.

Lemma download_saved_run request s name s2 :
  download_saved env request s name s2 →
  (response <- (fun s => (http_get env (url request) s, s));;
   match status_error response with
   | Some e => raise e
   | None => ret tt
   end;;;
   name <- NamedTemporaryFile env
             (url_suffix (default [] (content_type response)) (url request))
             (py "/app/temp");;
   write_and_close env name (content response);;;
   transcribe env name (req_language request) (model request))%py
     (with_temp_file None s)
  = transcribe env name (req_language request) (model request) s2.
Proof.
  intros (response & Hget & Hstatus & Hmk & Hwrite & ->).
  unfold NamedTemporaryFile, write_and_close, bind, get, lift, ret,
    set_files, set_temp_file, modify.
  rewrite Hget, Hstatus. cbv beta iota zeta. rewrite Hmk. cbv beta iota.
  fold (created name (with_temp_file None s)).
  rewrite Hwrite. reflexivity.
Qed.

Lemma transcribe_audio_eq file language model s :
  transcribe_audio env file language model s =
    let body :=
      (name <- NamedTemporaryFile env (upload_suffix env file) (py "/app/temp");;
       content <- lift (read file);;
       write_and_close env name content;;;
       transcribe env name language model)%py in
    let out := body (with_temp_file None s) in
    (match out.1 with
     | Ok a => Ok a
     | Raise e => Ok (failure (exn_str e) model)
     end, cleaned out.2).
Proof.
  unfold transcribe_audio.
  erewrite bind_ok by reflexivity.
  by rewrite (guarded_eq _ _ (λ e, failure (exn_str e) model)).
Qed.

Lemma transcribe_from_url_eq request s :
  transcribe_from_url env request s =
    let body :=
      (response <- (fun s => (http_get env (url request) s, s));;
       match status_error response with
       | Some e => raise e
       | None => ret tt
       end;;;
       let content_type := default [] (content_type response) in
       let suffix := url_suffix content_type (url request) in
       name <- NamedTemporaryFile env suffix (py "/app/temp");;
       write_and_close env name (content response);;;
       transcribe env name (req_language request) (model request))%py in
    let out := body (with_temp_file None s) in
    (match out.1 with
     | Ok a => Ok a
     | Raise e =>
         Ok (if is_HTTPError e
             then failure (py "Failed to download audio: " ++ exn_str e)
                    (model request)
             else failure (exn_str e) (model request))
     end, cleaned out.2).
Proof.
  unfold transcribe_from_url.
  erewrite bind_ok by reflexivity.
  rewrite (guarded_eq _ _
    (λ e, if is_HTTPError e
          then failure (py "Failed to download audio: " ++ exn_str e)
                 (model request)
          else failure (exn_str e) (model request))); [done|].
  intros e s'. cbn [dispatch]. by destruct (is_HTTPError e).
Qed.

End Transcription.

(** ** The whisper server: what the endpoints return *)

Section Responses.
Import Whisper.
Context (env : Env).

(** C4: the transcript in the response of the upload endpoint, of the
    URL endpoint and of the file-path endpoint is the texts of the segments
    the recognition yields, each trimmed, joined with single spaces.  A
    trimmed text neither starts nor ends with whitespace, and consecutive
    texts are separated by exactly one space. *)
Theorem transcript_is_trimmed_texts_joined :
  (∀ file language model s name s2 whisper s3 segments info,
     upload_saved env file s name s2 →
     get_whisper_model env (Some model) s2 = (Ok whisper, s3) →
     recognize env whisper name language s3 =
       Ok ({| yields := segments; fails_with := None |}, info) →
     ∃ response,
       (transcribe_audio env file language model s).1 = Ok response ∧
       success response = true ∧
       transcript response = Some (assembled segments))
  ∧
  (∀ request s name s2 whisper s3 segments info,
     download_saved env request s name s2 →
     get_whisper_model env (Some (model request)) s2 = (Ok whisper, s3) →
     recognize env whisper name (req_language request) s3 =
       Ok ({| yields := segments; fails_with := None |}, info) →
     ∃ response,
       (transcribe_from_url env request s).1 = Ok response ∧
       success response = true ∧
       transcript response = Some (assembled segments))
  ∧
  (∀ file_path language model s whisper s1 segments info,
     is_Some (files s !! file_path) →
     get_whisper_model env (Some model) s = (Ok whisper, s1) →
     recognize env whisper file_path language s1 =
       Ok ({| yields := segments; fails_with := None |}, info) →
     ∃ response,
       (transcribe_from_path env file_path language model s).1 = Ok response ∧
       success response = true ∧
       transcript response = Some (assembled segments))
  ∧
  (∀ segments,
     assembled segments =
       join (py " ") (map (λ segment, strip (text segment)) segments))
  ∧
  (∀ segment c r, strip (text segment) = c :: r → is_space c = false)
  ∧
  (∀ segment r c, strip (text segment) = r ++ [c] → is_space c = false)
  ∧
  (∀ first second rest,
     assembled (first :: second :: rest) =
       strip (text first) ++ py " " ++ assembled (second :: rest)).
Proof.
  repeat split.
  - intros file language model s name s2 whisper s3 segments info
      Hsaved Hw Hr.
    rewrite transcribe_audio_eq. cbv zeta.
    rewrite (upload_saved_run env _ _ _ _ _ _ Hsaved).
    rewrite (transcribe_ok env _ _ _ _ _ _ _ _ Hw Hr).
    eexists. cbn [fst]. split; [reflexivity|]. done.
  - intros request s name s2 whisper s3 segments info Hsaved Hw Hr.
    rewrite transcribe_from_url_eq. cbv zeta.
    rewrite (download_saved_run env _ _ _ _ Hsaved).
    rewrite (transcribe_ok env _ _ _ _ _ _ _ _ Hw Hr).
    eexists. cbn [fst]. split; [reflexivity|]. done.
  - intros file_path language model s whisper s1 segments info Hthere Hw Hr.
    unfold transcribe_from_path.
    erewrite try_except_ok; cycle 1.
    { erewrite bind_ok by reflexivity.
      rewrite bool_decide_eq_true_2 by done. cbn [negb].
      apply (transcribe_ok env _ _ _ _ _ _ _ _ Hw Hr). }
    eexists. cbn [fst]. split; [reflexivity|]. done.
  - intros segment c r. apply strip_head.
  - intros segment r c. apply strip_last.
Qed.

(** C8, as the code has it: when the recognition raises an exception [e],
    no transcription endpoint raises: the upload endpoint, the URL
    endpoint and the file-path endpoint each return a response with
    [success = False] whose error is [str(e)]; the URL endpoint puts
    "Failed to download audio: " before it when [e] is an
    [httpx.HTTPError].  So the error is not empty when [str(e)] is
    not. *)
Theorem recognition_failure_is_reported :
  (∀ file language model s name s2 whisper s3 e,
     upload_saved env file s name s2 →
     get_whisper_model env (Some model) s2 = (Ok whisper, s3) →
     recognition_raises env whisper name language s3 e →
     (transcribe_audio env file language model s).1 =
       Ok {| success := false; transcript := None; language := None;
             language_probability := None; duration := None;
             model_used := model; error := Some (exn_str e) |})
  ∧
  (∀ request s name s2 whisper s3 e,
     download_saved env request s name s2 →
     get_whisper_model env (Some (model request)) s2 = (Ok whisper, s3) →
     recognition_raises env whisper name (req_language request) s3 e →
     (transcribe_from_url env request s).1 =
       Ok {| success := false; transcript := None; language := None;
             language_probability := None; duration := None;
             model_used := model request;
             error := Some (if is_HTTPError e
                            then py "Failed to download audio: " ++ exn_str e
                            else exn_str e) |})
  ∧
  (∀ file_path language model s whisper s1 e,
     is_Some (files s !! file_path) →
     get_whisper_model env (Some model) s = (Ok whisper, s1) →
     recognition_raises env whisper file_path language s1 e →
     (transcribe_from_path env file_path language model s).1 =
       Ok {| success := false; transcript := None; language := None;
             language_probability := None; duration := None;
             model_used := model; error := Some (exn_str e) |})
  ∧
  (∀ e, exn_str e ≠ [] →
     (if is_HTTPError e
      then py "Failed to download audio: " ++ exn_str e
      else exn_str e) ≠ []).
Proof.
  repeat split.
  - intros file language model s name s2 whisper s3 e Hsaved Hw Hr.
    rewrite transcribe_audio_eq. cbv zeta.
    rewrite (upload_saved_run env _ _ _ _ _ _ Hsaved).
    by rewrite (transcribe_raises env _ _ _ _ _ _ _ Hw Hr).
  - intros request s name s2 whisper s3 e Hsaved Hw Hr.
    rewrite transcribe_from_url_eq. cbv zeta.
    rewrite (download_saved_run env _ _ _ _ Hsaved).
    rewrite (transcribe_raises env _ _ _ _ _ _ _ Hw Hr). cbn [fst].
    by destruct (is_HTTPError e).
  - intros file_path language model s whisper s1 e Hthere Hw Hr.
    unfold transcribe_from_path.
    erewrite try_except_raise; cycle 1.
    { erewrite bind_ok by reflexivity.
      rewrite bool_decide_eq_true_2 by done. cbn [negb].
      apply (transcribe_raises env _ _ _ _ _ _ _ Hw Hr). }
    reflexivity.
  - intros e He. by destruct (is_HTTPError e).
Qed.

(** The upload endpoint never raises, whatever fails. *)
Lemma transcribe_audio_never_raises file language model s :
  ∃ response, (transcribe_audio env file language model s).1 = Ok response.
Proof.
  rewrite transcribe_audio_eq. cbv zeta. cbn [fst].
  match goal with |- context [match ?x with _ => _ end] => destruct x end;
    eauto.
Qed.

(** The URL endpoint never raises either. *)
Lemma transcribe_from_url_never_raises request s :
  ∃ response, (transcribe_from_url env request s).1 = Ok response.
Proof.
  rewrite transcribe_from_url_eq. cbv zeta. cbn [fst].
  match goal with |- context [match ?x with _ => _ end] => destruct x end;
    eauto.
Qed.

(** After the temporary file is created, the local variable names it
    until the body of the upload endpoint ends, however it ends. *)
Lemma upload_body_temp_file file language model s name :
  mkstemp env (upload_suffix env file) (py "/app/temp") (with_temp_file None s)
    = Ok name →
  temp_file
    ((name <- NamedTemporaryFile env (upload_suffix env file) (py "/app/temp");;
      content <- lift (read file);;
      write_and_close env name content;;;
      transcribe env name language model)%py (with_temp_file None s)).2
  = Some name.
Proof.
  intros Hmk.
  unfold NamedTemporaryFile, write_and_close, bind, get, lift, ret,
    set_files, set_temp_file, modify.
  rewrite Hmk. cbv beta iota.
  fold (created name (with_temp_file None s)).
  destruct (read file) as [data|e]; [|done].
  destruct (write_error env name data _) as [e|]; [done|].
  unfold raise.
  match goal with |- temp_file (transcribe env ?p ?l ?m ?s0).2 = _ =>
    destruct (transcribe env p l m s0) as [r s'] eqn:Ht
  end.
  apply transcribe_frame in Ht as [_ Ht]. cbn [snd]. by rewrite Ht.
Qed.

(** C9: once the temporary file of an upload is created, it is absent
    from the file system when the endpoint completes, and the endpoint
    completes with a response, whether the transcription succeeded, a
    failure was reported or an exception was raised on the way. *)
Theorem upload_temp_file_removed file language model s name :
  mkstemp env (upload_suffix env file) (py "/app/temp") (with_temp_file None s)
    = Ok name →
  (∃ response, (transcribe_audio env file language model s).1 = Ok response)
  ∧ files (transcribe_audio env file language model s).2 !! name = None.
Proof.
  intros Hmk. split; [apply transcribe_audio_never_raises|].
  rewrite transcribe_audio_eq. cbv zeta. cbn [snd].
  unfold cleaned.
  rewrite (upload_body_temp_file _ _ _ _ _ Hmk).
  cbn [files with_files]. apply lookup_delete_eq.
Qed.

(** When the temporary file cannot be created, the files are untouched. *)
Lemma upload_without_temp_file file language model s e :
  mkstemp env (upload_suffix env file) (py "/app/temp") (with_temp_file None s)
    = Raise e →
  (transcribe_audio env file language model s).1
    = Ok (failure (exn_str e) model)
  ∧ files (transcribe_audio env file language model s).2 = files s.
Proof.
  intros Hmk. rewrite transcribe_audio_eq. cbv zeta.
  rewrite (bind_raise _ _ _ e (with_temp_file None s)); [done|].
  unfold NamedTemporaryFile.
  rewrite (bind_raise _ _ _ e (with_temp_file None s)); [done|].
  by rewrite Hmk.
Qed.

End Responses.

(** ** Caption normalization *)

Section Normalization.
Import VttCleaner.

Lemma runs_spec {A} (sep : A → bool) l :
  Forall (λ r, r ≠ [] ∧ forallb (λ x, negb (sep x)) r = true) (runs sep l).
Proof.
  induction l as [|x l IH]; [constructor|].
  cbn [runs]. destruct (sep x) eqn:Hx; [exact IH|].
  destruct l as [|y l]; [repeat constructor; [done|cbn; by rewrite Hx]|].
  destruct (sep y) eqn:Hy.
  - constructor; [|exact IH]. split; [done|]. cbn. by rewrite Hx.
  - destruct (runs sep (y :: l)) as [|r rs].
    + repeat constructor; [done|cbn; by rewrite Hx].
    + inversion IH as [|? ? [_ Hr] Hrs]; subst.
      constructor; [|exact Hrs]. split; [done|]. cbn. by rewrite Hx, Hr.
Qed.






Lemma forallb_weaken (Q R : N → bool) s :
  (∀ c, Q c = true → R c = true) → forallb Q s = true → forallb R s = true.
Proof.
  intros HQR. rewrite !forallb_forall. auto.
Qed.


(** Collapsing whitespace gives words joined by single spaces, and such a
    text is collapsed already. *)
Lemma collapse_whitespace_words s :
  ∃ ws, Forall word ws ∧ collapse_whitespace s = join (py " ") ws.
Proof. eexists. split; [apply runs_spec|reflexivity]. Qed.
















End Normalization.

(** ** Runs of the yt-dlp server *)

(** C1: a caption fetch that times out.  The exception raised by
    [subprocess.run] leaves the transcript endpoint as it is: no response
    with [success = False] is built. *)
Theorem caption_fetch_timeout_escapes :
  (YtDlp.extract_youtube_transcript (Samples.yt_dlp true true true)
     Samples.request Samples.yt_start).1
  = Raise (Exn TimeoutExpired (py "Command timed out after 120 seconds")).
Proof. vm_compute. reflexivity. Qed.

Lemma manual_absent_auto_present_witness :
  (YtDlp.extract_youtube_transcript (Samples.yt_dlp false true false)
     Samples.request Samples.yt_start).1
  = Ok {| YtDlp.success := true; YtDlp.video_id := Samples.video;
          YtDlp.title := Some (py "Never Gonna Give You Up");
          YtDlp.transcript := Some (strip Samples.captions);
          YtDlp.source := Some (py "auto-generated");
          YtDlp.language := py "en"; YtDlp.duration := Some 212%Z;
          YtDlp.error := None |}.
Proof.
  apply (manual_absent_auto_present (Samples.yt_dlp false true false)
           Samples.request Samples.yt_start Samples.video
           (Some (py "Never Gonna Give You Up")) (Some 212%Z)
           Samples.yt_after_info (py "/tmp/tmpk3x9")
           {| YtDlp.returncode := 0; YtDlp.stdout := []; YtDlp.stderr := [] |}
           ∅
           {| YtDlp.returncode := 0; YtDlp.stdout := []; YtDlp.stderr := [] |}
           {[ py "/tmp/tmpk3x9/subs.en.vtt" := Samples.captions ]}
           Samples.captions).
  - reflexivity.
  - repeat split; vm_compute; reflexivity.
  - vm_compute. reflexivity.
  - vm_compute. reflexivity.
  - vm_compute. reflexivity.
  - vm_compute. reflexivity.
Defined.

Lemma both_absent_suggests_whisper_witness :
  (YtDlp.extract_youtube_transcript (Samples.yt_dlp false false false)
     Samples.request Samples.yt_start).1
  = Ok {| YtDlp.success := false; YtDlp.video_id := Samples.video;
          YtDlp.title := Some (py "Never Gonna Give You Up");
          YtDlp.transcript := None; YtDlp.source := None;
          YtDlp.language := py "en"; YtDlp.duration := Some 212%Z;
          YtDlp.error := Some YtDlp.no_subtitles |}.
Proof.
  apply (both_absent_suggests_whisper (Samples.yt_dlp false false false)
           Samples.request Samples.yt_start Samples.video
           (Some (py "Never Gonna Give You Up")) (Some 212%Z)
           Samples.yt_after_info (py "/tmp/tmpk3x9")
           {| YtDlp.returncode := 0; YtDlp.stdout := []; YtDlp.stderr := [] |}
           ∅
           {| YtDlp.returncode := 0; YtDlp.stdout := []; YtDlp.stderr := [] |}
           ∅).
  - reflexivity.
  - repeat split; vm_compute; reflexivity.
  - vm_compute. reflexivity.
  - vm_compute. reflexivity.
  - vm_compute. reflexivity.
  - vm_compute. reflexivity.
Defined.

Lemma audio_cache_hit_and_miss_witness :
  YtDlp.download_youtube_audio (Samples.yt_dlp false false false)
    (py "https://youtu.be/dQw4w9WgXcQ") Samples.yt_cached
  = (Ok {| YtDlp.audio_success := true;
           YtDlp.audio_path := py "/app/temp/dQw4w9WgXcQ.mp3";
           YtDlp.audio_video_id := Samples.video; YtDlp.cached := true |},
     Samples.yt_cached)
  ∧ (YtDlp.download_youtube_audio (Samples.yt_dlp false false false)
       (py "https://youtu.be/dQw4w9WgXcQ") Samples.yt_start).1
  = Ok {| YtDlp.audio_success := true;
          YtDlp.audio_path := py "/app/temp/dQw4w9WgXcQ.mp3";
          YtDlp.audio_video_id := Samples.video; YtDlp.cached := false |}.
Proof.
  assert (YtDlp.extract_video_id (py "https://youtu.be/dQw4w9WgXcQ")
          = Ok Samples.video) as Hid by (vm_compute; reflexivity).
  split.
  - apply (proj1 (audio_cache_hit_and_miss (Samples.yt_dlp false false false)
                    _ Samples.yt_cached _ Hid)).
    vm_compute. eauto.
  - erewrite (proj2 (audio_cache_hit_and_miss (Samples.yt_dlp false false false)
                       _ Samples.yt_start _ Hid)).
    + reflexivity.
    + vm_compute. reflexivity.
    + vm_compute. reflexivity.
    + reflexivity.
    + vm_compute. eauto.
Defined.

(** ** Runs of the whisper server *)

(** While no model is loaded, a request for a size other than the default
    fills the global; the next request for the default size is then
    served by that object, whose size is not the default. *)
Lemma default_request_served_by_other_size env model_size c r s s' :
  Whisper.whisper_model s = None →
  model_size = c :: r →
  Whisper.load_error env model_size s = None →
  (Whisper.get_whisper_model env (Some model_size) s).2 = s' →
  Whisper.get_whisper_model env (Some (Whisper.WHISPER_MODEL_SIZE env)) s'
  = (Ok {| Whisper.instance := Whisper.constructed s;
           Whisper.size := model_size |}, s').
Proof.
  intros Hm Hsize Hload Hs'.
  destruct (get_whisper_model_first_other_size env _ _ _ _ Hm Hsize Hload)
    as (s1 & Hget & Hglobal).
  rewrite Hget in Hs'. cbn in Hs'. subst s1.
  by apply get_whisper_model_default.
Qed.

(** C7: on a server that has just started, with "base" as the default
    size, a first request for "small" stores its model in the global, and
    the request for "base" that follows is served by that "small" model. *)
Theorem first_request_replaces_default_model :
  let first :=
    Whisper.get_whisper_model (Samples.whisper None) (Some (py "small"))
      Samples.whisper_start in
  let second :=
    Whisper.get_whisper_model (Samples.whisper None) (Some (py "base"))
      first.2 in
  Whisper.whisper_model first.2
    = Some {| Whisper.instance := 0; Whisper.size := py "small" |}
  ∧ second.1 = Ok {| Whisper.instance := 0; Whisper.size := py "small" |}.
Proof. vm_compute. split; reflexivity. Qed.

Lemma transcript_is_trimmed_texts_joined_witness :
  (∃ response,
     (Whisper.transcribe_audio (Samples.whisper None) Samples.upload None
        (py "base") Samples.whisper_start).1 = Ok response ∧
     Whisper.success response = true ∧
     Whisper.transcript response
       = Some (py "Never gonna give you up never gonna let you down"))
  ∧
  (∃ response,
     (Whisper.transcribe_from_url (Samples.whisper None) Samples.url_request
        Samples.whisper_start).1 = Ok response ∧
     Whisper.success response = true ∧
     Whisper.transcript response
       = Some (py "Never gonna give you up never gonna let you down")).
Proof.
  pose proof (transcript_is_trimmed_texts_joined (Samples.whisper None))
    as (Hupload & Hurl & _).
  split.
  - apply (Hupload Samples.upload None (py "base") Samples.whisper_start
             Samples.temp_name Samples.whisper_saved Samples.base_model
             Samples.whisper_loaded Samples.segments Samples.info).
    + split; [vm_compute; reflexivity|].
      exists (py "ID3"). repeat split; vm_compute; reflexivity.
    + vm_compute. reflexivity.
    + vm_compute. reflexivity.
  - apply (Hurl Samples.url_request Samples.whisper_start
             Samples.temp_name Samples.whisper_saved Samples.base_model
             Samples.whisper_loaded Samples.segments Samples.info).
    + eexists. repeat split; vm_compute; reflexivity.
    + vm_compute. reflexivity.
    + vm_compute. reflexivity.
Defined.

(** C8: an exception whose [str] is empty (a bare [MemoryError()], say)
    raised by the recognition gives a response whose error is the empty
    string. *)
Lemma recognition_failure_with_empty_message :
  ∃ response,
    (Whisper.transcribe_audio
       (Samples.whisper (Some (Exn OtherException []))) Samples.upload None
       (py "base") Samples.whisper_start).1 = Ok response
    ∧ Whisper.success response = false
    ∧ Whisper.error response = Some [].
Proof. eexists. vm_compute. repeat split; reflexivity. Qed.

Lemma recognition_failure_is_reported_witness :
  (Whisper.transcribe_audio
     (Samples.whisper (Some (Exn OtherException (py "Invalid data found when processing input"))))
     Samples.upload None (py "base") Samples.whisper_start).1
  = Ok (Whisper.failure (py "Invalid data found when processing input") (py "base"))
  ∧
  (Whisper.transcribe_from_url
     (Samples.whisper (Some (Exn OtherException (py "Invalid data found when processing input"))))
     Samples.url_request Samples.whisper_start).1
  = Ok (Whisper.failure (py "Invalid data found when processing input") (py "base"))
  ∧
  (Whisper.transcribe_from_path
     (Samples.whisper (Some (Exn OtherException (py "Invalid data found when processing input"))))
     Samples.temp_name None (py "base") Samples.whisper_saved).1
  = Ok (Whisper.failure (py "Invalid data found when processing input") (py "base")).
Proof.
  pose proof (recognition_failure_is_reported
                (Samples.whisper (Some (Exn OtherException (py "Invalid data found when processing input")))))
    as (Hupload & Hurl & Hpath & _).
  split; [|split].
  - apply (Hupload Samples.upload None (py "base") Samples.whisper_start
             Samples.temp_name Samples.whisper_saved Samples.base_model
             Samples.whisper_loaded
             (Exn OtherException (py "Invalid data found when processing input"))).
    + split; [vm_compute; reflexivity|].
      exists (py "ID3"). repeat split; vm_compute; reflexivity.
    + vm_compute. reflexivity.
    + left. vm_compute. reflexivity.
  - apply (Hurl Samples.url_request Samples.whisper_start
             Samples.temp_name Samples.whisper_saved Samples.base_model
             Samples.whisper_loaded
             (Exn OtherException (py "Invalid data found when processing input"))).
    + eexists. repeat split; vm_compute; reflexivity.
    + vm_compute. reflexivity.
    + left. vm_compute. reflexivity.
  - apply (Hpath Samples.temp_name None (py "base") Samples.whisper_saved
             Samples.base_model Samples.whisper_loaded
             (Exn OtherException (py "Invalid data found when processing input"))).
    + vm_compute. eauto.
    + vm_compute. reflexivity.
    + left. vm_compute. reflexivity.
Defined.

Lemma upload_temp_file_removed_witness :
  Whisper.files
    (Whisper.transcribe_audio (Samples.whisper None) Samples.upload None
       (py "base") Samples.whisper_start).2 !! Samples.temp_name = None.
Proof.
  apply (upload_temp_file_removed (Samples.whisper None) Samples.upload None
           (py "base") Samples.whisper_start Samples.temp_name).
  vm_compute. reflexivity.
Defined.

(** ** Runs of the caption normalizer *)

(** Rolling captions: the second cue repeats the first and adds two
    words; the text of the first cue comes out once, followed by the two
    words.  Tags and the header are dropped. *)
Example rolling_captions :
  VttCleaner.clean_vtt_content
    (py "WEBVTT
Kind: captions

1
00:00:00.000 --> 00:00:02.000
<c>the quick</c> brown

2
00:00:02.000 --> 00:00:04.000
the quick brown fox jumps
[Music]
") = py "the quick brown fox jumps".
Proof. vm_compute. reflexivity. Qed.

(** A tag split over two lines is stripped with the rest. *)
Example split_tag_is_stripped :
  VttCleaner.clean_vtt_content (py "WEBVTT

00:00:00.000 --> 00:00:02.000
a <b
c> d
") = py "a d".
Proof. vm_compute. reflexivity. Qed.

(** The cue of the sample document reads "WEBVTT is a caption format":
    the document gives that sentence, and the sentence, which holds no
    cue, gives itself.  So does a plain string with an arrow in it. *)
Example plain_strings_come_back :
  VttCleaner.clean_vtt_content Samples.about_webvtt
    = py "WEBVTT is a caption format"
  ∧ VttCleaner.clean_vtt_content (py "a --> b") = py "a --> b".
Proof. vm_compute. split; reflexivity. Qed.


(** ** Resolving a video identifier: the accepted forms *)

(** C10: for every eleven-character token over [[A-Za-z0-9_-]],
    [extract_video_id] returns the token itself from the watch URL
    ([v=token], whatever follows it), from the short link
    ([youtu.be/token]), from the path form ([/v/token]), from the embed
    URL ([embed/token]) and from the bare token.  More generally the
    token is returned whatever precedes the marker, as long as no marker
    followed by a token occurs earlier in the text. *)
Theorem extract_video_id_accepted_forms t :
  YtDlp.token t →
  (∀ rest, YtDlp.extract_video_id
             (py "https://www.youtube.com/watch?v=" ++ t ++ rest) = Ok t)
  ∧ (∀ rest, YtDlp.extract_video_id (py "https://youtu.be/" ++ t ++ rest) = Ok t)
  ∧ (∀ rest, YtDlp.extract_video_id
               (py "https://www.youtube.com/v/" ++ t ++ rest) = Ok t)
  ∧ YtDlp.extract_video_id (py "https://www.youtube.com/embed/" ++ t) = Ok t
  ∧ YtDlp.extract_video_id t = Ok t
  ∧ (∀ lit before rest,
       lit ∈ YtDlp.url_markers →
       YtDlp.search_alts YtDlp.url_markers (before ++ lit) = None →
       YtDlp.extract_video_id (before ++ lit ++ t ++ rest) = Ok t)
  ∧ (∀ before,
       YtDlp.search_alts YtDlp.url_markers (before ++ py "embed/") = None →
       YtDlp.search_alts YtDlp.embed_markers (before ++ py "embed/") = None →
       YtDlp.extract_video_id (before ++ py "embed/" ++ t) = Ok t).
Proof.
  intros Ht. repeat split.
  - intros rest.
    apply (url_marker_form t (py "v=") (py "https://www.youtube.com/watch?"));
      [done|by vm_compute; set_solver|by vm_compute].
  - intros rest.
    apply (url_marker_form t (py "youtu.be/") (py "https://"));
      [done|by vm_compute; set_solver|by vm_compute].
  - intros rest.
    apply (url_marker_form t (py "/v/") (py "https://www.youtube.com"));
      [done|by vm_compute; set_solver|by vm_compute].
  - apply (embed_marker_form t (py "https://www.youtube.com/"));
      [done|by vm_compute..].
  - by apply bare_form.
  - intros lit before rest. by apply url_marker_form.
  - intros before. by apply embed_marker_form.
Qed.

Lemma extract_video_id_accepted_forms_witness :
  YtDlp.extract_video_id (py "https://www.youtube.com/watch?v=dQw4w9WgXcQ&t=42s")
    = Ok Samples.video
  ∧ YtDlp.extract_video_id (py "https://m.youtube.com/embed/dQw4w9WgXcQ")
    = Ok Samples.video
  ∧ YtDlp.extract_video_id (py "dQw4w9WgXcQ") = Ok Samples.video.
Proof.
  assert (YtDlp.token Samples.video) as Ht by (split; reflexivity).
  pose proof (extract_video_id_accepted_forms Samples.video Ht)
    as (Hwatch & _ & _ & _ & Hbare & _ & Hembed).
  split; [exact (Hwatch (py "&t=42s"))|split; [|exact Hbare]].
  apply (Hembed (py "https://m.youtube.com/")); vm_compute; reflexivity.
Defined.


(* ********************************************************************* *)
(** * Further properties                                                  *)
(* ********************************************************************* *)

(** ** What extract_video_id returns and what it rejects *)

Section ResolverResults.
Import YtDlp.

Lemma match_id11_sound s g :
  match_id11 s = Some g → token g ∧ s = g ++ drop 11 s.
Proof.
  unfold match_id11.
  destruct (_ && _) eqn:Hc; [|done]. intros [= <-].
  apply andb_prop in Hc as [Hlen Hid]. apply Nat.eqb_eq in Hlen.
  split; [done|]. by rewrite take_drop.
Qed.

Lemma match_alts_sound lits s g :
  match_alts lits s = Some g →
  ∃ lit after, lit ∈ lits ∧ s = lit ++ g ++ after ∧ token g.
Proof.
  induction lits as [|lit lits IH]; [done|]. cbn [match_alts].
  destruct (strip_prefix lit s) as [r|] eqn:Hp; cbn [mbind option_bind].
  - destruct (match_id11 r) as [g'|] eqn:Hm.
    + intros [= ->]. apply strip_prefix_app in Hp.
      apply match_id11_sound in Hm as [Ht Hr].
      exists lit, (drop 11 r). rewrite <- Hr.
      split; [apply list_elem_of_here|done].
    + intros (l & a & Hin & ? & ?)%IH. exists l, a.
      split; [by apply list_elem_of_further|done].
  - intros (l & a & Hin & ? & ?)%IH. exists l, a.
    split; [by apply list_elem_of_further|done].
Qed.

Lemma search_alts_sound lits s g :
  search_alts lits s = Some g →
  ∃ before lit after, lit ∈ lits ∧ s = before ++ lit ++ g ++ after ∧ token g.
Proof.
  induction s as [|c s IH].
  - cbn. destruct (match_alts lits []) eqn:Hm; [|done]. intros [= ->].
    apply match_alts_sound in Hm as (l & a & ? & ? & ?). by exists [], l, a.
  - rewrite search_alts_cons.
    destruct (match_alts lits (c :: s)) eqn:Hm.
    + intros [= ->].
      apply match_alts_sound in Hm as (l & a & ? & ? & ?). by exists [], l, a.
    + intros (b & l & a & ? & -> & ?)%IH. by exists (c :: b), l, a.
Qed.

Lemma search_bare_sound s g :
  search_bare s = Some g → token g ∧ (s = g ∨ s = g ++ [10%N]).
Proof.
  unfold search_bare. destruct (match_id11 s) as [g'|] eqn:Hm; [|done].
  apply match_id11_sound in Hm as [Ht Hs].
  destruct (drop 11 s) as [|c rest] eqn:Hd.
  - intros [= ->]. rewrite app_nil_r in Hs. auto.
  - intros H. assert (c = 10%N ∧ rest = [] ∧ g' = g) as (-> & -> & ->).
    { destruct c as [|p]; [by destruct rest|].
      repeat (destruct p as [p|p|]; try (by destruct rest)).
      destruct rest; [|done]. by injection H as ->. }
    auto.
Qed.

Lemma has_token_intro before g after :
  token g → YtDlpInfo.has_token (before ++ g ++ after) = true.
Proof.
  intros Ht. induction before as [|c before IH]; cbn [app].
  - destruct (g ++ after) eqn:Hga; cbn [YtDlpInfo.has_token];
      rewrite <- Hga, match_id11_app by done; done.
  - cbn [YtDlpInfo.has_token]. rewrite IH. by destruct (match_id11 _).
Qed.

Lemma extract_video_id_found url g :
  extract_video_id url = Ok g →
  token g ∧
  ((∃ before lit after,
      lit ∈ url_markers ++ embed_markers ∧ url = before ++ lit ++ g ++ after)
   ∨ url = g ∨ url = g ++ [10%N]).
Proof.
  unfold extract_video_id, patterns, first_match.
  destruct (search_alts url_markers url) as [g1|] eqn:H1.
  { intros [= ->]. apply search_alts_sound in H1 as (b & l & a & ? & ? & ?).
    split; [done|]. left. exists b, l, a. split; [|done].
    apply elem_of_app. by left. }
  destruct (search_alts embed_markers url) as [g2|] eqn:H2.
  { intros [= ->]. apply search_alts_sound in H2 as (b & l & a & ? & ? & ?).
    split; [done|]. left. exists b, l, a. split; [|done].
    apply elem_of_app. by right. }
  destruct (search_bare url) as [g3|] eqn:H3; [|done].
  intros [= ->]. apply search_bare_sound in H3 as [? ?]. auto.
Qed.

(** X1: an identifier returned by [extract_video_id] is an
    eleven-character token over the class, and it stands in the input
    right after one of the markers [v=], [/v/], [youtu.be/], [embed/], or
    it is the whole input, possibly followed by one newline. *)
Theorem extract_video_id_sound url g :
  extract_video_id url = Ok g →
  token g ∧
  ((∃ before lit after,
      lit ∈ url_markers ++ embed_markers ∧ url = before ++ lit ++ g ++ after)
   ∨ url = g ∨ url = g ++ [10%N]).
Proof. apply extract_video_id_found. Qed.

Lemma extract_video_id_sound_witness :
  YtDlp.token Samples.video.
Proof.
  apply (extract_video_id_sound (py "https://youtu.be/dQw4w9WgXcQ?t=1")
           Samples.video).
  vm_compute. reflexivity.
Defined.

(** X2: an input in which no eleven consecutive characters are in the
    class is rejected: [extract_video_id] raises the ValueError whose
    message ends with the input. *)
Theorem extract_video_id_rejects url :
  YtDlpInfo.has_token url = false →
  extract_video_id url
  = Raise (Exn ValueError (py "Could not extract video ID from: " ++ url)).
Proof.
  intros Hno. destruct (extract_video_id url) as [g|e] eqn:He.
  - exfalso. apply extract_video_id_found in He
      as [Ht [(b & l & a & _ & ->)|[->| ->]]].
    + pose proof (has_token_intro (b ++ l) g a Ht) as H.
      rewrite <- app_assoc in H. congruence.
    + pose proof (has_token_intro [] g [] Ht) as H.
      cbn [app] in H. rewrite app_nil_r in H. congruence.
    + pose proof (has_token_intro [] g [10%N] Ht) as H.
      cbn [app] in H. congruence.
  - revert He. unfold extract_video_id.
    destruct (first_match patterns url); [done|]. by intros [= <-].
Qed.

Lemma extract_video_id_rejects_witness :
  extract_video_id (py "https://example.com/watch?list=PL42")
  = Raise (Exn ValueError
             (py "Could not extract video ID from: https://example.com/watch?list=PL42")).
Proof.
  apply (extract_video_id_rejects (py "https://example.com/watch?list=PL42")).
  vm_compute. reflexivity.
Defined.

Lemma match_id11_length s g : match_id11 s = Some g → 11 ≤ length s.
Proof.
  intros [[Hlen _] Hs]%match_id11_sound.
  rewrite Hs, length_app. lia.
Qed.

(** X3: on an input made only of class characters the first two patterns
    find nothing, so the input is accepted exactly when it has eleven
    characters, and then it is returned as it is; a shorter or longer one
    is rejected. *)
Theorem extract_video_id_bare s :
  forallb is_id_char s = true →
  extract_video_id s
  = if (length s =? 11)%nat then Ok s
    else Raise (Exn ValueError (py "Could not extract video ID from: " ++ s)).
Proof.
  intros Hid. unfold extract_video_id, patterns, first_match.
  rewrite !search_alts_outside
    by (first [exact Hid|apply url_markers_are_markers
              |apply embed_markers_are_markers]).
  destruct (Nat.eqb_spec (length s) 11) as [Hlen|Hlen].
  - by rewrite search_bare_token.
  - destruct (search_bare s) as [g|] eqn:Hb; [|done]. exfalso.
    apply search_bare_sound in Hb as [[Hg _] [->| ->]]; [done|].
    rewrite forallb_app in Hid. by apply andb_prop in Hid as [_ ?].
Qed.

Lemma extract_video_id_bare_witness :
  extract_video_id (py "dQw4w9WgXcQ0")
  = Raise (Exn ValueError (py "Could not extract video ID from: dQw4w9WgXcQ0")).
Proof.
  apply (extract_video_id_bare (py "dQw4w9WgXcQ0")). vm_compute. reflexivity.
Defined.

(** Text after a character outside the class does not help the group to
    match. *)
Lemma match_id11_break r c y :
  is_id_char c = false → match_id11 r = None → match_id11 (r ++ c :: y) = None.
Proof.
  intros Hc. unfold match_id11.
  destruct (decide (11 ≤ length r)) as [Hlen|Hlen].
  - by rewrite (take_app_le r (c :: y)).
  - intros _. rewrite (take_app_ge r (c :: y)) by lia.
    destruct (11 - length r) as [|n] eqn:Hn; [lia|].
    rewrite forallb_app. cbn. rewrite Hc.
    by rewrite andb_false_r, andb_false_r.
Qed.

(** A character that is neither in the class nor in any marker separates:
    the text before it cannot start a match that reaches over it. *)
Lemma search_alts_break lits x c y :
  Forall (λ lit, c ∉ lit) lits → is_id_char c = false →
  search_alts lits x = None →
  search_alts lits (x ++ c :: y) = search_alts lits (c :: y).
Proof.
  intros Hlits Hc. induction x as [|a x IH]; [done|].
  rewrite search_alts_cons.
  destruct (match_alts lits (a :: x)) eqn:Hhere; [done|]. intros Hnone.
  cbn [app]. rewrite search_alts_cons.
  assert (match_alts lits (a :: x ++ c :: y) = None) as ->; [|auto].
  clear IH Hnone. induction Hlits as [|lit lits Hlit _ IHl]; [done|].
  cbn [match_alts] in Hhere |- *.
  destruct (strip_prefix lit (a :: x) ≫= match_id11) eqn:Hlit_here; [done|].
  change (a :: x ++ c :: y) with ((a :: x) ++ c :: y).
  pose proof (strip_prefix_extend lit (a :: x) (c :: y)) as Hext.
  destruct (strip_prefix lit (a :: x)) as [r|] eqn:Hp.
  - rewrite Hext. cbn [mbind option_bind] in Hlit_here |- *.
    rewrite match_id11_break by done. auto.
  - destruct Hext as [->|(z & Hz & -> & ->)]; [by apply IHl|].
    destruct z as [|z1 z]; [done|].
    rewrite strip_prefix_cons.
    destruct (N.eqb_spec z1 c) as [->|_]; [|by apply IHl].
    exfalso. apply Hlit. apply elem_of_app. right. apply list_elem_of_here.
Qed.

Ltac by_computation := apply (bool_decide_unpack _); vm_compute; exact I.

Lemma question_mark_separates : Forall (λ lit, 63%N ∉ lit) url_markers.
Proof. by_computation. Qed.

Lemma newline_separates :
  Forall (λ lit, 10%N ∉ lit) url_markers
  ∧ Forall (λ lit, 10%N ∉ lit) embed_markers.
Proof. split; by_computation. Qed.

Lemma v_parameter_is_url_marker : py "v=" ∈ url_markers.
Proof. by_computation. Qed.

(** X4: the patterns are tried in order over the whole input, so an embed
    URL that also carries a [v=] parameter resolves to the parameter and
    not to the embedded identifier. *)
Theorem extract_video_id_prefers_parameter embedded parameter rest :
  token embedded → token parameter →
  extract_video_id
    (py "https://www.youtube.com/embed/" ++ embedded ++ py "?v=" ++ parameter
       ++ rest)
  = Ok parameter.
Proof.
  intros He Hp. unfold extract_video_id, patterns, first_match.
  assert (search_alts url_markers
            ((py "https://www.youtube.com/embed/" ++ embedded)
               ++ 63%N :: py "v=" ++ parameter ++ rest) = Some parameter) as H.
  { rewrite search_alts_break.
    - apply (search_alts_leftmost url_markers (py "v=") [63%N] parameter rest);
        [done|apply url_markers_are_markers|apply v_parameter_is_url_marker
        |by vm_compute].
    - apply question_mark_separates.
    - done.
    - apply (search_alts_nothing url_markers
               (py "https://www.youtube.com/embed/") embedded He
               url_markers_are_markers).
      + right. by exists (py "https://www.youtube.com/embed"), 47%N.
      + apply (embed_ends_with_no_url_marker (py "https://www.youtube.com/")).
      + by vm_compute. }
  rewrite <- app_assoc in H.
  change (py "?v=" ++ parameter ++ rest)
    with (63%N :: py "v=" ++ parameter ++ rest).
  by rewrite H.
Qed.

Lemma extract_video_id_prefers_parameter_witness :
  extract_video_id
    (py "https://www.youtube.com/embed/AAAAAAAAAAA?v=dQw4w9WgXcQ&t=1")
  = Ok Samples.video.
Proof.
  apply (extract_video_id_prefers_parameter (py "AAAAAAAAAAA") Samples.video
           (py "&t=1")); split; reflexivity.
Defined.

(** X5: [$] also matches before a newline that ends the input, so a token
    followed by one newline is accepted in the bare form and returned
    without the newline. *)
Theorem extract_video_id_trailing_newline t :
  token t → extract_video_id (t ++ [10%N]) = Ok t.
Proof.
  intros Ht. pose proof Ht as [Hlen Hid].
  unfold extract_video_id, patterns, first_match.
  rewrite !search_alts_break;
    [|apply newline_separates|done
     |apply search_alts_outside; [done|apply embed_markers_are_markers]
     |apply newline_separates|done
     |apply search_alts_outside; [done|apply url_markers_are_markers]].
  change (search_alts url_markers [10%N]) with (@None (list N)).
  change (search_alts embed_markers [10%N]) with (@None (list N)).
  unfold search_bare. rewrite match_id11_app by done.
  by rewrite drop_app_length' by done.
Qed.

Lemma extract_video_id_trailing_newline_witness :
  extract_video_id (Samples.video ++ [10%N]) = Ok Samples.video.
Proof.
  apply (extract_video_id_trailing_newline Samples.video). split; reflexivity.
Defined.

End ResolverResults.

(** ** The transcript endpoint: the other paths *)

Section CaptionPaths.
Import YtDlp.
Context (env : Env).

Lemma extract_video_id_raises url e :
  extract_video_id url = Raise e →
  e = Exn ValueError (py "Could not extract video ID from: " ++ url).
Proof.
  unfold extract_video_id. destruct (first_match patterns url); [done|].
  by intros [= <-].
Qed.

Lemma rmtree_run dir (s : State) :
  rmtree dir s
  = (Ok tt,
     {| files := filter (λ kv, ¬ (dir ++ py "/") `prefix_of` kv.1) (files s);
        calls := calls s |}).
Proof. reflexivity. Qed.

(** Leaving the [with] block: the outcome of the body, in the state where
    the temporary directory is removed. *)
Lemma with_temporary_directory {A} (body : M State A) dir s :
  try_finally body (rmtree dir) s
  = ((body s).1,
     {| files := filter (λ kv, ¬ (dir ++ py "/") `prefix_of` kv.1)
                   (files (body s).2);
        calls := calls (body s).2 |}).
Proof.
  unfold try_finally. destruct (body s) as [r s']. by rewrite rmtree_run.
Qed.

Ltac enter Hreach :=
  destruct Hreach as (Hid & Hmeta & Hdir);
  unfold extract_youtube_transcript; rewrite Hid;
  erewrite bind_ok by exact Hmeta; cbv beta iota;
  erewrite bind_ok by (rewrite Hdir; reflexivity);
  rewrite with_temporary_directory.

(** X6: a request whose URL holds no identifier is answered with
    [success = False], an empty [video_id] and the message of the
    ValueError; no command is run and the state is untouched. *)
Theorem transcript_invalid_url request s e :
  extract_video_id (url request) = Raise e →
  extract_youtube_transcript env request s
  = (Ok {| success := false; video_id := []; title := None;
           transcript := None; source := None;
           language := req_language request; duration := None;
           error := Some (py "Could not extract video ID from: "
                            ++ url request) |}, s).
Proof.
  intros He. unfold extract_youtube_transcript. rewrite He.
  apply extract_video_id_raises in He as ->. reflexivity.
Qed.

(** The body of the [with] block when the manual captions are there. *)
Lemma captions_manual_present
    request s video_id title duration s1 temp_dir manual fs1 vtt_content :
  let video_url := watch_url video_id in
  let output_template := path_join temp_dir (py "subs") in
  let vtt_file := vtt_path output_template (req_language request) in
  let cmd_manual :=
    cmd_subs (py "--write-sub") (req_language request) output_template video_url in
  prefer_manual request = true →
  reaches_captions env request s video_id title duration s1 temp_dir →
  run_process env cmd_manual 120 s1 = (Ok manual, fs1) →
  fs1 !! vtt_file = Some vtt_content →
  (extract_youtube_transcript env request s).1 =
    Ok {| success := true; video_id := video_id; title := title;
          transcript := Some (clean_vtt_content env vtt_content);
          source := Some (py "manual");
          language := req_language request; duration := duration;
          error := None |}
  ∧ calls (extract_youtube_transcript env request s).2
    = calls s1 ++ [(cmd_manual, 120%N)].
Proof.
  intros video_url output_template vtt_file cmd_manual
    Hpref Hreach Hmanual Hsome.
  enter Hreach. rewrite Hpref.
  erewrite bind_ok by (apply subprocess_run_eq, Hmanual).
  erewrite bind_ok by apply path_exists_eq.
  cbn [files ran]. fold output_template vtt_file. rewrite Hsome.
  rewrite bool_decide_eq_true_2 by eauto.
  erewrite bind_ok by (apply read_text_present; exact Hsome).
  done.
Qed.

(** The body of the [with] block when the manual captions are not
    preferred. *)
Lemma captions_auto_only
    request s video_id title duration s1 temp_dir auto fs2 :
  let video_url := watch_url video_id in
  let output_template := path_join temp_dir (py "subs") in
  let vtt_file := vtt_path output_template (req_language request) in
  let cmd_auto :=
    cmd_subs (py "--write-auto-sub") (req_language request) output_template video_url in
  prefer_manual request = false →
  reaches_captions env request s video_id title duration s1 temp_dir →
  run_process env cmd_auto 120 s1 = (Ok auto, fs2) →
  (extract_youtube_transcript env request s).1 =
    Ok (match fs2 !! vtt_file with
        | Some vtt_content =>
            {| success := true; video_id := video_id; title := title;
               transcript := Some (clean_vtt_content env vtt_content);
               source := Some (py "auto-generated");
               language := req_language request; duration := duration;
               error := None |}
        | None =>
            {| success := false; video_id := video_id; title := title;
               transcript := None; source := None;
               language := req_language request; duration := duration;
               error := Some no_subtitles |}
        end)
  ∧ calls (extract_youtube_transcript env request s).2
    = calls s1 ++ [(cmd_auto, 120%N)].
Proof.
  intros video_url output_template vtt_file cmd_auto Hpref Hreach Hauto.
  enter Hreach. rewrite Hpref.
  erewrite bind_ok by (apply subprocess_run_eq, Hauto).
  erewrite bind_ok by apply path_exists_eq.
  cbn [files ran]. fold output_template vtt_file.
  destruct (fs2 !! vtt_file) as [vtt_content|] eqn:Hfile.
  - rewrite bool_decide_eq_true_2 by eauto.
    erewrite bind_ok by (apply read_text_present; exact Hfile).
    done.
  - rewrite bool_decide_eq_false_2 by (by intros [? ?]). done.
Qed.

(** X7: with [prefer_manual], when the manual fetch produces the caption
    file the response has the source "manual" and the cleaned content of
    the file, and the fetch of the auto-generated captions is not run: the
    manual command, with its timeout of 120 seconds, is the last one
    logged. *)
Theorem manual_captions_win
    request s video_id title duration s1 temp_dir manual fs1 vtt_content :
  let video_url := watch_url video_id in
  let output_template := path_join temp_dir (py "subs") in
  let vtt_file := vtt_path output_template (req_language request) in
  let cmd_manual :=
    cmd_subs (py "--write-sub") (req_language request) output_template video_url in
  prefer_manual request = true →
  reaches_captions env request s video_id title duration s1 temp_dir →
  run_process env cmd_manual 120 s1 = (Ok manual, fs1) →
  fs1 !! vtt_file = Some vtt_content →
  (extract_youtube_transcript env request s).1 =
    Ok {| success := true; video_id := video_id; title := title;
          transcript := Some (clean_vtt_content env vtt_content);
          source := Some (py "manual");
          language := req_language request; duration := duration;
          error := None |}
  ∧ calls (extract_youtube_transcript env request s).2
    = calls s1 ++ [(cmd_manual, 120%N)].
Proof. apply captions_manual_present. Qed.

(** X8: without [prefer_manual] the manual captions are never asked for:
    after the metadata only the command for the auto-generated captions
    is run, and the response is a success with the source
    "auto-generated" when it leaves the caption file, the failure that
    points to whisper when it does not. *)
Theorem manual_captions_not_asked
    request s video_id title duration s1 temp_dir auto fs2 :
  let video_url := watch_url video_id in
  let output_template := path_join temp_dir (py "subs") in
  let vtt_file := vtt_path output_template (req_language request) in
  let cmd_auto :=
    cmd_subs (py "--write-auto-sub") (req_language request) output_template video_url in
  prefer_manual request = false →
  reaches_captions env request s video_id title duration s1 temp_dir →
  run_process env cmd_auto 120 s1 = (Ok auto, fs2) →
  (extract_youtube_transcript env request s).1 =
    Ok (match fs2 !! vtt_file with
        | Some vtt_content =>
            {| success := true; video_id := video_id; title := title;
               transcript := Some (clean_vtt_content env vtt_content);
               source := Some (py "auto-generated");
               language := req_language request; duration := duration;
               error := None |}
        | None =>
            {| success := false; video_id := video_id; title := title;
               transcript := None; source := None;
               language := req_language request; duration := duration;
               error := Some no_subtitles |}
        end)
  ∧ calls (extract_youtube_transcript env request s).2
    = calls s1 ++ [(cmd_auto, 120%N)].
Proof. apply captions_auto_only. Qed.

Lemma get_title_duration_failure video_url s outcome fs :
  run_process env (cmd_info video_url) 30 s = (outcome, fs) →
  match outcome with
  | Raise _ => True
  | Ok result =>
      returncode result ≠ 0%Z
      ∨ ∃ e, json_title_duration env (stdout result) = Raise e
  end →
  get_title_duration env video_url s
  = (Ok (None, None), ran (cmd_info video_url) 30 fs s).
Proof.
  intros Hrun Hfails. unfold get_title_duration.
  destruct outcome as [result|e].
  - destruct (Z.eqb_spec (returncode result) 0) as [Hzero|Hnonzero].
    + destruct Hfails as [?|[e He]]; [done|].
      erewrite try_except_raise; [reflexivity|].
      erewrite bind_ok by (apply subprocess_run_eq, Hrun).
      rewrite Hzero. cbn [Z.eqb]. unfold lift. by rewrite He.
    + erewrite try_except_ok; [reflexivity|].
      erewrite bind_ok by (apply subprocess_run_eq, Hrun).
      by rewrite (proj2 (Z.eqb_neq _ _) Hnonzero).
  - erewrite try_except_raise; [reflexivity|].
    erewrite bind_raise by (apply subprocess_run_eq, Hrun). done.
Qed.

(** X9: the metadata is best effort, for every request.  When the
    metadata command raises (a timeout, say), exits with a code other than
    0, or prints what cannot be parsed, the request goes on: with
    [prefer_manual] the manual captions are returned when they are there
    and the auto-generated ones when only they are, without it the
    auto-generated ones; and whatever response the endpoint gives has no
    title and no duration. *)
Theorem metadata_failure_is_not_fatal
    request s video_id outcome fs0 temp_dir :
  let video_url := watch_url video_id in
  let s1 := ran (cmd_info video_url) 30 fs0 s in
  let output_template := path_join temp_dir (py "subs") in
  let vtt_file := vtt_path output_template (req_language request) in
  let cmd_manual :=
    cmd_subs (py "--write-sub") (req_language request) output_template video_url in
  let cmd_auto :=
    cmd_subs (py "--write-auto-sub") (req_language request) output_template video_url in
  let found source vtt_content :=
    {| success := true; video_id := video_id; title := None;
       transcript := Some (clean_vtt_content env vtt_content);
       source := Some source;
       language := req_language request; duration := None;
       error := None |} in
  extract_video_id (url request) = Ok video_id →
  run_process env (cmd_info video_url) 30 s = (outcome, fs0) →
  match outcome with
  | Raise _ => True
  | Ok result =>
      returncode result ≠ 0%Z
      ∨ ∃ e, json_title_duration env (stdout result) = Raise e
  end →
  mkdtemp env s1 = Ok temp_dir →
  (∀ manual fs1 vtt_content,
     prefer_manual request = true →
     run_process env cmd_manual 120 s1 = (Ok manual, fs1) →
     fs1 !! vtt_file = Some vtt_content →
     (extract_youtube_transcript env request s).1
       = Ok (found (py "manual") vtt_content))
  ∧
  (∀ manual fs1 auto fs2 vtt_content,
     prefer_manual request = true →
     run_process env cmd_manual 120 s1 = (Ok manual, fs1) →
     fs1 !! vtt_file = None →
     run_process env cmd_auto 120 (ran cmd_manual 120 fs1 s1) = (Ok auto, fs2) →
     fs2 !! vtt_file = Some vtt_content →
     (extract_youtube_transcript env request s).1
       = Ok (found (py "auto-generated") vtt_content))
  ∧
  (∀ auto fs2 vtt_content,
     prefer_manual request = false →
     run_process env cmd_auto 120 s1 = (Ok auto, fs2) →
     fs2 !! vtt_file = Some vtt_content →
     (extract_youtube_transcript env request s).1
       = Ok (found (py "auto-generated") vtt_content))
  ∧
  (∀ response,
     (extract_youtube_transcript env request s).1 = Ok response →
     title response = None ∧ duration response = None).
Proof.
  intros video_url s1 output_template vtt_file cmd_manual cmd_auto found
    Hid Hrun Hfails Hdir.
  assert (reaches_captions env request s video_id None None s1 temp_dir)
    as Hreach.
  { split; [done|]. split; [|done].
    by apply (get_title_duration_failure _ _ outcome). }
  clear Hid Hrun Hfails Hdir.
  split; [|split; [|split]].
  - intros manual fs1 vtt_content Hpref Hmanual Hfile.
    by destruct (captions_manual_present request s video_id None None s1
                   temp_dir manual fs1 vtt_content Hpref Hreach Hmanual Hfile)
      as [-> _].
  - intros manual fs1 auto fs2 vtt_content Hpref Hmanual Hnone Hauto Hfile.
    enter Hreach. rewrite Hpref.
    erewrite bind_ok by (apply subprocess_run_eq, Hmanual).
    erewrite bind_ok by apply path_exists_eq.
    cbn [files ran]. fold output_template vtt_file. rewrite Hnone.
    rewrite bool_decide_eq_false_2 by (by intros [? ?]).
    erewrite bind_ok by (apply subprocess_run_eq, Hauto).
    erewrite bind_ok by apply path_exists_eq.
    cbn [files ran]. rewrite Hfile.
    rewrite bool_decide_eq_true_2 by eauto.
    erewrite bind_ok by (apply read_text_present; exact Hfile).
    done.
  - intros auto fs2 vtt_content Hpref Hauto Hfile.
    destruct (captions_auto_only request s video_id None None s1 temp_dir
                auto fs2 Hpref Hreach Hauto) as [-> _].
    fold output_template vtt_file. by rewrite Hfile.
  - intros response. enter Hreach. cbn [fst].
    unfold bind, subprocess_run, path_exists, read_text, ret.
    repeat case_match; cbn [fst]; intros ?; by simplify_eq.
Qed.

(** X10: the temporary directory does not outlive the request.  Once it
    is created, whatever the commands do and whether the endpoint returns
    or raises, no file below it is left; in particular the caption file
    is gone. *)
Theorem caption_files_removed
    request s video_id title duration s1 temp_dir :
  reaches_captions env request s video_id title duration s1 temp_dir →
  (∀ p, (temp_dir ++ py "/") `prefix_of` p →
        files (extract_youtube_transcript env request s).2 !! p = None)
  ∧ (temp_dir ≠ [] → endswith temp_dir (py "/") = false →
     files (extract_youtube_transcript env request s).2
       !! vtt_path (path_join temp_dir (py "subs")) (req_language request)
     = None).
Proof.
  intros Hreach.
  assert (∀ p, (temp_dir ++ py "/") `prefix_of` p →
            files (extract_youtube_transcript env request s).2 !! p = None)
    as Hbelow.
  { intros p Hp. enter Hreach. cbn [files snd].
    apply map_lookup_filter_None_2. right. intros x _ Hnot. by apply Hnot. }
  split; [exact Hbelow|]. intros Hne Hslash. apply Hbelow.
  unfold path_join, vtt_path. rewrite Hslash.
  rewrite bool_decide_eq_false_2 by done.
  change (startswith (py "subs") (py "/")) with false. cbn [orb].
  exists (py "subs" ++ py "." ++ req_language request ++ py ".vtt").
  by rewrite <- !app_assoc.
Qed.

End CaptionPaths.

(** ** The audio endpoint: the other paths *)

Section AudioPaths.
Import YtDlp.
Context (env : Env).

Lemma audio_hit url s video_id :
  extract_video_id url = Ok video_id →
  is_Some (files s !! audio_output_path video_id) →
  download_youtube_audio env url s
  = (Ok {| audio_success := true;
           audio_path := audio_output_path video_id;
           audio_video_id := video_id; cached := true |}, s).
Proof.
  intros Hid Hhit. unfold download_youtube_audio. rewrite Hid.
  erewrite bind_ok by apply path_exists_eq.
  by rewrite bool_decide_eq_true_2.
Qed.

(** On a miss the endpoint is the guarded download. *)
Lemma audio_miss url s video_id outcome fs :
  let output_path := audio_output_path video_id in
  let cmd := cmd_audio output_path (watch_url video_id) in
  extract_video_id url = Ok video_id →
  files s !! output_path = None →
  run_process env cmd 300 s = (outcome, fs) →
  download_youtube_audio env url s
  = (match outcome with
     | Raise e =>
         if is_TimeoutExpired e
         then Raise (Exn (HTTPException 504) (py "Timeout downloading audio"))
         else Raise e
     | Ok result =>
         if negb (returncode result =? 0)%Z
         then Raise (Exn (HTTPException 500)
                       (py "yt-dlp error: " ++ stderr result))
         else if bool_decide (is_Some (fs !! output_path))
         then Ok {| audio_success := true; audio_path := output_path;
                    audio_video_id := video_id; cached := false |}
         else Raise (Exn (HTTPException 500) (py "Audio file not created"))
     end, ran cmd 300 fs s).
Proof.
  intros output_path cmd Hid Hmiss Hrun.
  unfold download_youtube_audio. rewrite Hid. fold output_path.
  erewrite bind_ok by apply path_exists_eq.
  rewrite Hmiss, bool_decide_eq_false_2 by (by intros [? ?]).
  fold cmd. unfold try_except.
  destruct outcome as [result|e].
  - erewrite bind_ok by (apply subprocess_run_eq, Hrun).
    destruct (negb (returncode result =? 0)%Z); [done|].
    erewrite bind_ok by apply path_exists_eq. cbn [files ran].
    by destruct (bool_decide (is_Some (fs !! output_path))).
  - erewrite bind_raise by (apply subprocess_run_eq, Hrun).
    cbn [dispatch]. by destruct (is_TimeoutExpired e).
Qed.

(** X11: the audio endpoint answers a URL that holds no identifier with
    the HTTP error 400 carrying the message of the ValueError; it runs no
    command and leaves the state as it is. *)
Theorem audio_invalid_url url s e :
  extract_video_id url = Raise e →
  download_youtube_audio env url s
  = (Raise (Exn (HTTPException 400)
              (py "Could not extract video ID from: " ++ url)), s).
Proof.
  intros He. unfold download_youtube_audio. rewrite He.
  apply extract_video_id_raises in He as ->. reflexivity.
Qed.

(** X12: on a cache miss, a download that exits with a code other than 0
    becomes the HTTP error 500 carrying the standard error of yt-dlp, and
    a download that exits with 0 without leaving the file becomes the
    HTTP error 500 "Audio file not created". *)
Theorem audio_download_failures url s video_id result fs :
  let output_path := audio_output_path video_id in
  let cmd := cmd_audio output_path (watch_url video_id) in
  extract_video_id url = Ok video_id →
  files s !! output_path = None →
  run_process env cmd 300 s = (Ok result, fs) →
  (returncode result ≠ 0%Z →
   (download_youtube_audio env url s).1
   = Raise (Exn (HTTPException 500) (py "yt-dlp error: " ++ stderr result)))
  ∧ (returncode result = 0%Z → fs !! output_path = None →
     (download_youtube_audio env url s).1
     = Raise (Exn (HTTPException 500) (py "Audio file not created"))).
Proof.
  intros output_path cmd Hid Hmiss Hrun.
  rewrite (audio_miss url s video_id (Ok result) fs Hid Hmiss Hrun).
  cbn [fst]. split.
  - intros Hcode. by rewrite (proj2 (Z.eqb_neq _ _) Hcode).
  - intros -> Hnone. cbn [Z.eqb negb]. fold output_path. rewrite Hnone.
    by rewrite bool_decide_eq_false_2 by (by intros [? ?]).
Qed.

(** X13: on a cache miss, a download that exceeds its 300 seconds becomes
    the HTTP error 504; any other exception raised by running the command
    leaves the endpoint unchanged. *)
Theorem audio_download_exceptions url s video_id e fs :
  let output_path := audio_output_path video_id in
  let cmd := cmd_audio output_path (watch_url video_id) in
  extract_video_id url = Ok video_id →
  files s !! output_path = None →
  run_process env cmd 300 s = (Raise e, fs) →
  (download_youtube_audio env url s).1
  = if is_TimeoutExpired e
    then Raise (Exn (HTTPException 504) (py "Timeout downloading audio"))
    else Raise e.
Proof.
  intros output_path cmd Hid Hmiss Hrun.
  rewrite (audio_miss url s video_id (Raise e) fs Hid Hmiss Hrun).
  cbn [fst]. by destruct (is_TimeoutExpired e).
Qed.

(** X14: after a download that succeeded, a second request for the same
    video, through whatever URL resolves to the same identifier, is a
    cache hit: it returns the same path with [cached = True] and runs no
    further command. *)
Theorem audio_second_request_is_cached url1 url2 s video_id result fs :
  let output_path := audio_output_path video_id in
  let cmd := cmd_audio output_path (watch_url video_id) in
  extract_video_id url1 = Ok video_id →
  extract_video_id url2 = Ok video_id →
  files s !! output_path = None →
  run_process env cmd 300 s = (Ok result, fs) →
  returncode result = 0%Z →
  is_Some (fs !! output_path) →
  let s1 := (download_youtube_audio env url1 s).2 in
  download_youtube_audio env url2 s1
  = (Ok {| audio_success := true; audio_path := output_path;
           audio_video_id := video_id; cached := true |}, s1)
  ∧ calls s1 = calls s ++ [(cmd, 300%N)].
Proof.
  intros output_path cmd Hid1 Hid2 Hmiss Hrun Hcode Hthere s1.
  subst s1.
  rewrite (audio_miss url1 s video_id (Ok result) fs Hid1 Hmiss Hrun).
  cbn [snd]. split; [|done].
  by apply audio_hit.
Qed.

Lemma replace_from_other old1 old new x rest :
  forallb (λ c, negb (c =? old1)%N) x = true →
  replace_from 0 (old1 :: old) new (x ++ rest)
  = x ++ replace_from 0 (old1 :: old) new rest.
Proof.
  induction x as [|c x IH]; [done|]. cbn [forallb app].
  intros [Hc Hx]%andb_prop. apply negb_true_iff in Hc.
  cbn [replace_from]. unfold startswith. rewrite strip_prefix_cons.
  rewrite N.eqb_sym, Hc. by rewrite IH.
Qed.

Lemma id_char_is_no_dot c : is_id_char c = true → negb (c =? 46)%N = true.
Proof. destruct (N.eqb_spec c 46) as [->|]; [by vm_compute|done]. Qed.

(** X15: for every token the output template handed to yt-dlp is the
    cache path with the extension [.mp3] replaced by [.%(ext)s]: the
    replacement touches nothing else of the path. *)
Theorem audio_output_template t :
  token t →
  cmd_audio (audio_output_path t) (watch_url t)
  = [ py "yt-dlp"; py "-x"; py "--audio-format"; py "mp3"; py "-o";
      py "/app/temp/" ++ t ++ py ".%(ext)s";
      py "https://www.youtube.com/watch?v=" ++ t ].
Proof.
  intros [_ Hid]. unfold cmd_audio, audio_output_path, watch_url, replace.
  do 6 f_equal.
  rewrite (replace_from_other 46 (py "mp3") (py ".%(ext)s") (py "/app/temp/"))
    by (by vm_compute).
  f_equal.
  rewrite (replace_from_other 46 (py "mp3") (py ".%(ext)s") t).
  - f_equal.
  - eapply forallb_weaken; [|exact Hid]. apply id_char_is_no_dot.
Qed.

End AudioPaths.

(** ** Health and video information of the yt-dlp server *)

Section VideoInformation.
Import YtDlp YtDlpInfo.
Context (env : Env) (json_loads : pystr → Loaded).

(** X16: the health check never raises and always answers with the
    status "ok": when yt-dlp cannot be run, or runs too long, the version
    reads "error"; when it exits with a code other than 0 it reads
    "unknown"; otherwise it is what yt-dlp printed, trimmed. *)
Theorem health_check_always_answers s :
  (health_check env s).1
  = Ok {| status := py "ok"; service := py "yt-dlp-server";
          version := py "1.0.0";
          yt_dlp_version :=
            match (run_process env [py "yt-dlp"; py "--version"] 10 s).1 with
            | Raise _ => py "error"
            | Ok result =>
                if (returncode result =? 0)%Z then strip (stdout result)
                else py "unknown"
            end |}.
Proof.
  unfold health_check, bind, try_except, subprocess_run, ret.
  destruct (run_process env _ _ s) as [[result|e] fs]; reflexivity.
Qed.

(** The endpoint once the identifier is known. *)
Lemma get_video_info_run url s video_id outcome fs :
  let cmd := cmd_info (watch_url video_id) in
  extract_video_id url = Ok video_id →
  run_process env cmd 60 s = (outcome, fs) →
  get_video_info env json_loads url s
  = (match outcome with
     | Raise e =>
         if is_TimeoutExpired e
         then Raise (Exn (HTTPException 504) (py "Timeout getting video info"))
         else Raise e
     | Ok result =>
         if negb (returncode result =? 0)%Z
         then Raise (Exn (HTTPException 500)
                       (py "yt-dlp error: " ++ stderr result))
         else
           match json_loads (stdout result) with
           | JSONDecodeError _ =>
               Raise (Exn (HTTPException 500) (py "Failed to parse video info"))
           | Parsed info =>
               let subtitles := default ∅ (get_subtitles info) in
               let auto_captions := default ∅ (get_automatic_captions info) in
               Ok {| video_id := video_id;
                     title := default (py "Unknown") (get_title info);
                     duration := default 0%Z (get_duration info);
                     channel := default (py "Unknown") (get_channel info);
                     upload_date := get_upload_date info;
                     has_manual_subs := bool_decide (0 < size subtitles);
                     has_auto_subs := bool_decide (0 < size auto_captions);
                     available_languages := languages subtitles auto_captions |}
           end
     end, ran cmd 60 fs s).
Proof.
  intros cmd Hid Hrun. unfold get_video_info. rewrite Hid.
  change [py "yt-dlp"; py "--dump-json"; py "--no-download";
          py "https://www.youtube.com/watch?v=" ++ video_id] with cmd.
  unfold try_except. destruct outcome as [result|e].
  - erewrite bind_ok by (apply subprocess_run_eq, Hrun).
    destruct (negb (returncode result =? 0)%Z); [done|].
    by destruct (json_loads (stdout result)).
  - erewrite bind_raise by (apply subprocess_run_eq, Hrun).
    cbn [dispatch]. by destruct (is_TimeoutExpired e).
Qed.

(** X17: the failures of the information endpoint.  A URL without an
    identifier gives the HTTP error 400 and runs nothing; a command that
    exceeds its 60 seconds gives 504; an exit code other than 0 gives 500
    with the standard error of yt-dlp; an output that is not JSON gives
    500 "Failed to parse video info". *)
Theorem video_info_failures url s :
  (∀ e, extract_video_id url = Raise e →
        get_video_info env json_loads url s
        = (Raise (Exn (HTTPException 400)
                    (py "Could not extract video ID from: " ++ url)), s))
  ∧ (∀ video_id outcome fs,
       extract_video_id url = Ok video_id →
       run_process env (cmd_info (watch_url video_id)) 60 s = (outcome, fs) →
       (∀ e, outcome = Raise e → is_TimeoutExpired e = true →
             (get_video_info env json_loads url s).1
             = Raise (Exn (HTTPException 504) (py "Timeout getting video info")))
       ∧ (∀ result, outcome = Ok result → returncode result ≠ 0%Z →
             (get_video_info env json_loads url s).1
             = Raise (Exn (HTTPException 500)
                        (py "yt-dlp error: " ++ stderr result)))
       ∧ (∀ result e, outcome = Ok result → returncode result = 0%Z →
             json_loads (stdout result) = JSONDecodeError e →
             (get_video_info env json_loads url s).1
             = Raise (Exn (HTTPException 500) (py "Failed to parse video info")))).
Proof.
  split.
  - intros e He. unfold get_video_info. rewrite He.
    apply extract_video_id_raises in He as ->. reflexivity.
  - intros video_id outcome fs Hid Hrun.
    rewrite (get_video_info_run url s video_id outcome fs Hid Hrun).
    cbn [fst]. repeat split.
    + intros e -> He. by rewrite He.
    + intros result -> Hcode. by rewrite (proj2 (Z.eqb_neq _ _) Hcode).
    + intros result e -> -> Hjson. cbn [Z.eqb negb]. by rewrite Hjson.
Qed.

(** X18: the information returned for a video.  Missing title, duration
    and channel read "Unknown", 0 and "Unknown"; the video has manual
    (automatic) subtitles exactly when the dictionary of subtitles (of
    automatic captions) has a language; the available languages are the
    languages of either dictionary, each listed once. *)
Theorem video_info_fields url s video_id result fs info :
  extract_video_id url = Ok video_id →
  run_process env (cmd_info (watch_url video_id)) 60 s = (Ok result, fs) →
  returncode result = 0%Z →
  json_loads (stdout result) = Parsed info →
  let subtitles := default ∅ (get_subtitles info) in
  let auto_captions := default ∅ (get_automatic_captions info) in
  ∃ video,
    (get_video_info env json_loads url s).1 = Ok video
    ∧ YtDlpInfo.video_id video = video_id
    ∧ title video = default (py "Unknown") (get_title info)
    ∧ duration video = default 0%Z (get_duration info)
    ∧ channel video = default (py "Unknown") (get_channel info)
    ∧ (has_manual_subs video = true ↔ ∃ l, l ∈ subtitles)
    ∧ (has_auto_subs video = true ↔ ∃ l, l ∈ auto_captions)
    ∧ NoDup (available_languages video)
    ∧ (∀ l, l ∈ available_languages video ↔ l ∈ subtitles ∨ l ∈ auto_captions).
Proof.
  intros Hid Hrun Hcode Hjson subtitles auto_captions.
  rewrite (get_video_info_run url s video_id (Ok result) fs Hid Hrun).
  rewrite Hcode, Hjson. cbn [Z.eqb negb fst].
  eexists. split; [reflexivity|]. cbn.
  fold subtitles auto_captions.
  assert (∀ X : gset (list N), bool_decide (0 < size X) = true ↔ ∃ l, l ∈ X)
    as Hsize.
  { intros X. rewrite bool_decide_eq_true. split.
    - apply size_pos_elem_of.
    - intros [l Hl]. destruct (decide (size X = 0)) as [H0|]; [|lia].
      apply size_empty_iff in H0. set_solver. }
  repeat split; try apply Hsize.
  - apply NoDup_elements.
  - unfold languages. rewrite elem_of_elements, elem_of_list_to_set,
      elem_of_app, !elem_of_elements. done.
  - unfold languages. rewrite elem_of_elements, elem_of_list_to_set,
      elem_of_app, !elem_of_elements. done.
Qed.

End VideoInformation.

(** ** Loading models: the other paths *)

Section ModelPaths.
Import Whisper WhisperInfo.
Context (env : Env).

Lemma get_whisper_model_loaded_stays model_size s m0 :
  whisper_model s = Some m0 →
  whisper_model (get_whisper_model env model_size s).2 = Some m0.
Proof.
  intros Hm. unfold get_whisper_model, bind, get. rewrite Hm.
  destruct (_ && _ && _); [|done].
  destruct (new_WhisperModel env _ s) as [r s'] eqn:Hnew.
  apply new_WhisperModel_frame in Hnew as (_ & _ & Hg).
  cbn [snd]. by rewrite Hg.
Qed.

(** X19: the global is assigned at most once.  Once it holds a model, no
    call of [get_whisper_model], whatever size it asks for and whether it
    succeeds or raises, changes it. *)
Theorem whisper_model_assigned_once model_size s m0 :
  whisper_model s = Some m0 →
  whisper_model (get_whisper_model env model_size s).2 = Some m0.
Proof. apply get_whisper_model_loaded_stays. Qed.

(** X20: a model that cannot be constructed.  The exception raised by
    [WhisperModel(...)] leaves [get_whisper_model] as it is and the state
    is unchanged: an empty global stays empty, so the next request
    constructs again. *)
Theorem whisper_model_load_failure model_size s e :
  load_error env (requested_size env model_size) s = Some e →
  whisper_model s = None
  ∨ (truthy model_size = true ∧ model_size ≠ Some (WHISPER_MODEL_SIZE env)) →
  get_whisper_model env model_size s = (Raise e, s).
Proof.
  intros Hload Hcase. unfold get_whisper_model, bind, get.
  fold (requested_size env model_size).
  assert (new_WhisperModel env (requested_size env model_size) s = (Raise e, s))
    as Hnew by (unfold new_WhisperModel; by rewrite Hload).
  destruct (whisper_model s) as [m0|] eqn:Hm.
  - destruct Hcase as [|[Htruthy Hne]]; [done|].
    rewrite Htruthy, !bool_decide_eq_true_2 by done. exact Hnew.
  - rewrite (bool_decide_eq_false_2 (None ≠ None)) by (intros H; by apply H).
    cbn [andb]. by rewrite Hnew.
Qed.

(** X21: no size means the default size.  On a server with no model
    loaded, a request with no size or with the empty string constructs
    the model of [WHISPER_MODEL_SIZE] and stores it in the global. *)
Theorem whisper_model_default_size model_size s :
  model_size = None ∨ model_size = Some [] →
  whisper_model s = None →
  load_error env (WHISPER_MODEL_SIZE env) s = None →
  let loaded := {| instance := constructed s; size := WHISPER_MODEL_SIZE env |} in
  (get_whisper_model env model_size s).1 = Ok loaded
  ∧ whisper_model (get_whisper_model env model_size s).2 = Some loaded.
Proof.
  intros Hsize Hm Hload loaded. unfold get_whisper_model, bind, get.
  rewrite Hm.
  rewrite (bool_decide_eq_false_2 (None ≠ None)) by (intros H; by apply H).
  cbn [andb].
  assert (new_WhisperModel env (WHISPER_MODEL_SIZE env) s
          = (Ok loaded,
             {| files := files s; whisper_model := whisper_model s;
                constructed := S (constructed s);
                temp_file := temp_file s |})) as Hnew
    by (unfold new_WhisperModel; by rewrite Hload).
  destruct Hsize as [-> | ->]; by rewrite Hnew.
Qed.

(** X22: models of other sizes are not kept.  With a model loaded, two
    requests in a row for the same other size each construct a model: the
    two objects returned are different, and the global still holds the
    first model. *)
Theorem other_sizes_are_rebuilt model_size c r s m0 :
  whisper_model s = Some m0 →
  model_size = c :: r →
  model_size ≠ WHISPER_MODEL_SIZE env →
  (∀ s', load_error env model_size s' = None) →
  let first := get_whisper_model env (Some model_size) s in
  let second := get_whisper_model env (Some model_size) first.2 in
  first.1 = Ok {| instance := constructed s; size := model_size |}
  ∧ second.1 = Ok {| instance := S (constructed s); size := model_size |}
  ∧ whisper_model second.2 = Some m0.
Proof.
  intros Hm Hsize Hne Hload first second.
  destruct (get_whisper_model_other_size env model_size c r s m0
              Hm Hsize Hne (Hload s)) as (s1 & Hfirst & Hm1).
  assert (constructed s1 = S (constructed s)) as Hcount.
  { revert Hfirst. unfold get_whisper_model, bind, get. rewrite Hm, Hsize.
    cbn [truthy]. rewrite !bool_decide_eq_true_2 by congruence.
    cbn [andb]. unfold new_WhisperModel. rewrite <- Hsize, Hload.
    by intros [= <-]. }
  destruct (get_whisper_model_other_size env model_size c r s1 m0
              Hm1 Hsize Hne (Hload s1)) as (s2 & Hsecond & Hm2).
  subst first second. rewrite Hfirst. cbn [fst snd]. rewrite Hsecond.
  cbn [fst snd]. by rewrite Hcount.
Qed.

(** X23: the health check tells whether a model is loaded: it reports
    [model_loaded = False] while the global is empty, also after a load
    that failed, and [True] after any call of [get_whisper_model] that
    returned a model. *)
Theorem health_check_reports_model model_size s :
  (whisper_model s = None →
   (health_check env s).1
   = Ok {| status := py "ok"; service := py "whisper-server";
           version := py "1.0.0"; default_model := WHISPER_MODEL_SIZE env;
           model_loaded := false |})
  ∧ (∀ m, (get_whisper_model env model_size s).1 = Ok m →
          (health_check env (get_whisper_model env model_size s).2).1
          = Ok {| status := py "ok"; service := py "whisper-server";
                  version := py "1.0.0";
                  default_model := WHISPER_MODEL_SIZE env;
                  model_loaded := true |})
  ∧ (∀ e, whisper_model s = None →
          (get_whisper_model env model_size s).1 = Raise e →
          (health_check env (get_whisper_model env model_size s).2).1
          = Ok {| status := py "ok"; service := py "whisper-server";
                  version := py "1.0.0";
                  default_model := WHISPER_MODEL_SIZE env;
                  model_loaded := false |}).
Proof.
  assert (∀ s', (health_check env s').1
            = Ok {| status := py "ok"; service := py "whisper-server";
                    version := py "1.0.0";
                    default_model := WHISPER_MODEL_SIZE env;
                    model_loaded := bool_decide (whisper_model s' ≠ None) |})
    as Hhealth by done.
  repeat split.
  - intros Hm. rewrite Hhealth, Hm.
    by rewrite bool_decide_eq_false_2 by (intros H; by apply H).
  - intros m Hok. rewrite Hhealth. f_equal. f_equal.
    apply bool_decide_eq_true_2.
    revert Hok. unfold get_whisper_model, bind, get.
    destruct (whisper_model s) as [m0|] eqn:Hm.
    + destruct (_ && _ && _).
      * destruct (new_WhisperModel env _ s) as [r' s'] eqn:Hnew.
        apply new_WhisperModel_frame in Hnew as (_ & _ & Hg).
        cbn [snd]. by rewrite Hg, Hm.
      * unfold ret. cbn [snd]. by rewrite Hm.
    + rewrite (bool_decide_eq_false_2 (None ≠ None)) by (intros H; by apply H).
      cbn [andb].
      destruct (new_WhisperModel env _ s) as [[m'|e] s'] eqn:Hnew; [|done].
      done.
  - intros e Hm Hraise. rewrite Hhealth. f_equal. f_equal.
    apply bool_decide_eq_false_2. intros Hloaded. apply Hloaded.
    revert Hraise. unfold get_whisper_model, bind, get. rewrite Hm.
    rewrite (bool_decide_eq_false_2 (None ≠ None)) by (intros H; by apply H).
    cbn [andb].
    destruct (new_WhisperModel env _ s) as [[m'|e'] s'] eqn:Hnew; [done|].
    apply new_WhisperModel_frame in Hnew as (_ & _ & Hg).
    cbn [snd]. by rewrite Hg.
Qed.

End ModelPaths.

(** ** The transcription endpoints: every path *)

Section TranscriptionPaths.
Import Whisper.
Context (env : Env).

Lemma transcribe_state path language model s :
  (transcribe env path language model s).2
  = (get_whisper_model env (Some model) s).2.
Proof.
  unfold transcribe, bind.
  destruct (get_whisper_model env (Some model) s) as [[w|e] s1]; [|done].
  destruct (recognize env w path language s1) as [[g i]|e]; [|done].
  unfold drain. by destruct (fails_with g).
Qed.

Lemma transcribe_response path language model s a :
  (transcribe env path language model s).1 = Ok a →
  model_used a = model ∧ success a = true ∧ error a = None.
Proof.
  unfold transcribe, bind.
  destruct (get_whisper_model env (Some model) s) as [[w|e] s1]; [|done].
  destruct (recognize env w path language s1) as [[g i]|e]; [|done].
  unfold drain. destruct (fails_with g); [done|].
  unfold ret. cbn. by intros [= <-].
Qed.

(** The upload endpoint, path by path. *)
Lemma transcribe_audio_cases file language model s :
  let s0 := with_temp_file None s in
  transcribe_audio env file language model s
  = match mkstemp env (upload_suffix env file) (py "/app/temp") s0 with
    | Raise e => (Ok (failure (exn_str e) model), s0)
    | Ok name =>
        match read file with
        | Raise e => (Ok (failure (exn_str e) model), cleaned (created name s0))
        | Ok data =>
            match write_error env name data (created name s0) with
            | Some e =>
                (Ok (failure (exn_str e) model), cleaned (created name s0))
            | None =>
                let out :=
                  transcribe env name language model
                    (written name data (created name s0)) in
                (match out.1 with
                 | Ok a => Ok a
                 | Raise e => Ok (failure (exn_str e) model)
                 end, cleaned out.2)
            end
        end
    end.
Proof.
  intros s0. rewrite transcribe_audio_eq. cbv zeta. fold s0.
  unfold NamedTemporaryFile, write_and_close, bind, get, lift, ret, raise,
    set_files, set_temp_file, modify.
  destruct (mkstemp env _ _ s0) as [name|e]; [|done].
  cbv beta iota. fold (created name s0).
  destruct (read file) as [data|e]; [|done].
  destruct (write_error env name data (created name s0)) as [e|]; [done|].
  reflexivity.
Qed.

(** The URL endpoint, path by path. *)
Lemma transcribe_from_url_cases request s :
  let s0 := with_temp_file None s in
  let report e :=
    if is_HTTPError e
    then failure (py "Failed to download audio: " ++ exn_str e) (model request)
    else failure (exn_str e) (model request) in
  transcribe_from_url env request s
  = match http_get env (url request) s0 with
    | Raise e => (Ok (report e), s0)
    | Ok response =>
        match status_error response with
        | Some e => (Ok (report e), s0)
        | None =>
            match mkstemp env
                    (url_suffix (default [] (content_type response))
                       (url request)) (py "/app/temp") s0 with
            | Raise e => (Ok (report e), s0)
            | Ok name =>
                match write_error env name (content response)
                        (created name s0) with
                | Some e => (Ok (report e), cleaned (created name s0))
                | None =>
                    let out :=
                      transcribe env name (req_language request) (model request)
                        (written name (content response) (created name s0)) in
                    (match out.1 with
                     | Ok a => Ok a
                     | Raise e => Ok (report e)
                     end, cleaned out.2)
                end
            end
        end
    end.
Proof.
  intros s0 report. rewrite transcribe_from_url_eq. cbv zeta. fold s0.
  unfold NamedTemporaryFile, write_and_close, bind, get, lift, ret, raise,
    set_files, set_temp_file, modify.
  destruct (http_get env (url request) s0) as [response|e]; [|done].
  destruct (status_error response) as [e|]; [done|].
  destruct (mkstemp env _ _ s0) as [name|e]; [|done].
  cbv beta iota. fold (created name s0).
  destruct (write_error env name _ (created name s0)) as [e|]; [done|].
  reflexivity.
Qed.

(** X24: the upload endpoint always answers.  Whatever fails on the way,
    it returns a response and does not raise; the response names the
    model that was asked for, and it carries an error exactly when it is
    not a success. *)
Theorem upload_always_answers file language model s :
  ∃ response,
    (transcribe_audio env file language model s).1 = Ok response
    ∧ model_used response = model
    ∧ (success response = true ↔ error response = None).
Proof.
  rewrite transcribe_audio_cases. cbv zeta.
  destruct (mkstemp env _ _ _) as [name|e]; [|by eexists].
  destruct (read file) as [data|e]; [|by eexists].
  destruct (write_error env name data _) as [e|]; [by eexists|].
  cbn [fst].
  destruct (transcribe env name language model _).1 as [a|e] eqn:Hout;
    [|by eexists].
  apply transcribe_response in Hout as (? & Hs & He).
  exists a. by rewrite Hs, He.
Qed.

(** X25: with the default model loaded, an upload that asks for the
    default size touches no file but its temporary one: the content of
    every other path is after the request what it was before.  On this
    path no model is constructed; a request that constructs one is left
    out, since the constructor may download the weights. *)
Theorem upload_leaves_other_files file language s m0 p :
  whisper_model s = Some m0 →
  mkstemp env (upload_suffix env file) (py "/app/temp") (with_temp_file None s)
    ≠ Ok p →
  files (transcribe_audio env file language (WHISPER_MODEL_SIZE env) s).2 !! p
  = files s !! p.
Proof.
  intros Hm Hp. rewrite transcribe_audio_cases. cbv zeta.
  destruct (mkstemp env _ _ _) as [name|e]; [|done].
  assert (p ≠ name) as Hne by congruence.
  assert (∀ s', temp_file s' = Some name →
            files (cleaned s') !! p = files s' !! p) as Hclean.
  { intros s' Ht. unfold cleaned. rewrite Ht. cbn [files with_files].
    by rewrite lookup_delete_ne. }
  assert (files (created name (with_temp_file None s)) !! p = files s !! p)
    as Hcreated by (cbn; by rewrite lookup_insert_ne).
  destruct (read file) as [data|e];
    [|cbn [snd]; by rewrite Hclean].
  destruct (write_error env name data _) as [e|];
    [cbn [snd]; by rewrite Hclean|].
  cbn [snd]. rewrite transcribe_state.
  match goal with |- context [get_whisper_model env _ ?s2] =>
    rewrite (proj1 (get_whisper_model_default env s2 m0 Hm))
  end.
  cbn [snd]. rewrite Hclean by done. cbn.
  by rewrite lookup_insert_ne.
Qed.

(** X26: a loaded model survives the requests.  When the global holds a
    model, it holds the same model after an upload request, however the
    request ends; and a request for the default size constructs no
    model. *)
Theorem upload_keeps_loaded_model file language model s m0 :
  whisper_model s = Some m0 →
  whisper_model (transcribe_audio env file language model s).2 = Some m0
  ∧ (model = WHISPER_MODEL_SIZE env →
     constructed (transcribe_audio env file language model s).2
     = constructed s).
Proof.
  intros Hm. rewrite transcribe_audio_cases. cbv zeta.
  assert (∀ s', whisper_model (cleaned s') = whisper_model s'
                ∧ constructed (cleaned s') = constructed s') as Hclean
    by (intros s'; unfold cleaned; by destruct (temp_file s')).
  destruct (mkstemp env _ _ _) as [name|e]; [|done].
  destruct (read file) as [data|e];
    [|cbn [snd]; by rewrite !(proj1 (Hclean _)), !(proj2 (Hclean _))].
  destruct (write_error env name data _) as [e|];
    [cbn [snd]; by rewrite !(proj1 (Hclean _)), !(proj2 (Hclean _))|].
  cbn [snd]. rewrite transcribe_state.
  rewrite !(proj1 (Hclean _)), !(proj2 (Hclean _)). split.
  - by apply get_whisper_model_loaded_stays.
  - intros ->.
    match goal with |- context [get_whisper_model env _ ?s2] =>
      rewrite (proj1 (get_whisper_model_default env s2 m0 Hm))
    end.
    reflexivity.
Qed.

(** X27: the temporary file of the URL endpoint.  Once the download is
    saved under a temporary name, that file is absent when the endpoint
    completes, and the endpoint completes with a response however the
    transcription ends. *)
Theorem url_temp_file_removed request s response name :
  let s0 := with_temp_file None s in
  http_get env (url request) s0 = Ok response →
  status_error response = None →
  mkstemp env (url_suffix (default [] (content_type response)) (url request))
    (py "/app/temp") s0 = Ok name →
  (∃ answer, (transcribe_from_url env request s).1 = Ok answer)
  ∧ files (transcribe_from_url env request s).2 !! name = None.
Proof.
  intros s0 Hget Hstatus Hmk. rewrite transcribe_from_url_cases. cbv zeta.
  fold s0. rewrite Hget, Hstatus, Hmk.
  assert (∀ s', temp_file s' = Some name → files (cleaned s') !! name = None)
    as Hclean.
  { intros s' Ht. unfold cleaned. rewrite Ht. cbn [files with_files].
    apply lookup_delete_eq. }
  destruct (write_error env name _ _) as [e|].
  - split; [by eexists|]. cbn [snd]. by apply Hclean.
  - split.
    + cbn [fst]. destruct (transcribe env name _ _ _).1; by eexists.
    + cbn [snd]. rewrite transcribe_state.
      match goal with |- context [get_whisper_model env ?m ?s1] =>
        destruct (get_whisper_model env m s1) as [r s'] eqn:Hw
      end.
      apply get_whisper_model_frame in Hw as [_ Ht]. cbn [snd].
      apply Hclean. by rewrite Ht.
Qed.

(** X28: a download that fails.  When the request to the URL raises, or
    the response has an error status, the URL endpoint answers with
    [success = False]; for an [httpx.HTTPError] the error reads "Failed
    to download audio: " followed by the message, for any other
    exception it is the message alone.  No file is created and no model
    is loaded. *)
Theorem url_download_failure request s e :
  let s0 := with_temp_file None s in
  http_get env (url request) s0 = Raise e
  ∨ (∃ response, http_get env (url request) s0 = Ok response
                 ∧ status_error response = Some e) →
  transcribe_from_url env request s
  = (Ok (if is_HTTPError e
         then failure (py "Failed to download audio: " ++ exn_str e)
                (model request)
         else failure (exn_str e) (model request)), s0).
Proof.
  intros s0 Hfail. rewrite transcribe_from_url_cases. cbv zeta. fold s0.
  destruct Hfail as [->|(response & -> & ->)]; reflexivity.
Qed.

(** The file-path endpoint, path by path. *)
Lemma transcribe_from_path_cases file_path language model s :
  transcribe_from_path env file_path language model s
  = match files s !! file_path with
    | None => (Ok (failure (py "File not found: " ++ file_path) model), s)
    | Some _ =>
        let out := transcribe env file_path language model s in
        (match out.1 with
         | Ok a => Ok a
         | Raise e => Ok (failure (exn_str e) model)
         end, out.2)
    end.
Proof.
  unfold transcribe_from_path, try_except, bind, path_exists.
  destruct (files s !! file_path) as [c|] eqn:Hf.
  - rewrite bool_decide_eq_true_2 by eauto. cbn [negb].
    by destruct (transcribe env file_path language model s) as [[a|e] s'].
  - by rewrite bool_decide_eq_false_2 by (by intros [? ?]).
Qed.

(** X29: a path that does not exist.  The file-path endpoint answers
    "File not found: " followed by the path, with [success = False]; it
    loads no model and changes nothing. *)
Theorem path_not_found file_path language model s :
  files s !! file_path = None →
  transcribe_from_path env file_path language model s
  = (Ok {| success := false; transcript := None; language := None;
           language_probability := None; duration := None;
           model_used := model;
           error := Some (py "File not found: " ++ file_path) |}, s).
Proof. intros Hf. rewrite transcribe_from_path_cases. by rewrite Hf. Qed.

(** X30: the file-path endpoint always answers.  Whether the file is
    missing, the model cannot be loaded or the recognition fails, it
    returns a response and does not raise; the response names the model
    that was asked for, and it carries an error exactly when it is not a
    success. *)
Theorem path_always_answers file_path language model s :
  ∃ response,
    (transcribe_from_path env file_path language model s).1 = Ok response
    ∧ model_used response = model
    ∧ (success response = true ↔ error response = None).
Proof.
  rewrite transcribe_from_path_cases.
  destruct (files s !! file_path) as [c|]; [|by eexists].
  cbv zeta. cbn [fst].
  destruct (transcribe env file_path language model s).1 as [a|e] eqn:Hout;
    [|by eexists].
  apply transcribe_response in Hout as (? & Hs & He).
  exists a. by rewrite Hs, He.
Qed.

End TranscriptionPaths.

(** ** Runs of the other paths of the transcript endpoint *)

Lemma transcript_invalid_url_witness :
  (YtDlp.extract_youtube_transcript (Samples.yt_dlp true true false)
     {| YtDlp.url := py "not a video"; YtDlp.req_language := py "en";
        YtDlp.prefer_manual := true |} Samples.yt_start).2
  = Samples.yt_start.
Proof.
  rewrite (transcript_invalid_url (Samples.yt_dlp true true false) _
             Samples.yt_start
             (Exn ValueError (py "Could not extract video ID from: not a video")));
    [reflexivity|].
  vm_compute. reflexivity.
Defined.


Lemma manual_captions_win_witness :
  (YtDlp.extract_youtube_transcript (Samples.yt_dlp true true false)
     Samples.request Samples.yt_start).1
  = Ok {| YtDlp.success := true; YtDlp.video_id := Samples.video;
          YtDlp.title := Some (py "Never Gonna Give You Up");
          YtDlp.transcript := Some (strip Samples.captions);
          YtDlp.source := Some (py "manual");
          YtDlp.language := py "en"; YtDlp.duration := Some 212%Z;
          YtDlp.error := None |}.
Proof.
  apply (manual_captions_win (Samples.yt_dlp true true false)
           Samples.request Samples.yt_start Samples.video
           (Some (py "Never Gonna Give You Up")) (Some 212%Z)
           Samples.yt_after_info (py "/tmp/tmpk3x9")
           {| YtDlp.returncode := 0; YtDlp.stdout := []; YtDlp.stderr := [] |}
           {[ py "/tmp/tmpk3x9/subs.en.vtt" := Samples.captions ]}
           Samples.captions).
  - reflexivity.
  - repeat split; vm_compute; reflexivity.
  - vm_compute. reflexivity.
  - vm_compute. reflexivity.
Defined.

Lemma manual_captions_not_asked_witness :
  YtDlp.calls
    (YtDlp.extract_youtube_transcript (Samples.yt_dlp true true false)
       MoreSamples.request_auto Samples.yt_start).2
  = [ (YtDlp.cmd_info (YtDlp.watch_url Samples.video), 30%N);
      (YtDlp.cmd_subs (py "--write-auto-sub") (py "en")
         (py "/tmp/tmpk3x9/subs") (YtDlp.watch_url Samples.video), 120%N) ].
Proof.
  apply (manual_captions_not_asked (Samples.yt_dlp true true false)
           MoreSamples.request_auto Samples.yt_start Samples.video
           (Some (py "Never Gonna Give You Up")) (Some 212%Z)
           Samples.yt_after_info (py "/tmp/tmpk3x9")
           {| YtDlp.returncode := 0; YtDlp.stdout := []; YtDlp.stderr := [] |}
           {[ py "/tmp/tmpk3x9/subs.en.vtt" := Samples.captions ]}).
  - reflexivity.
  - repeat split; vm_compute; reflexivity.
  - vm_compute. reflexivity.
Defined.

Lemma metadata_failure_is_not_fatal_witness :
  (YtDlp.extract_youtube_transcript MoreSamples.yt_dlp_no_metadata
     Samples.request Samples.yt_start).1
  = Ok {| YtDlp.success := true; YtDlp.video_id := Samples.video;
          YtDlp.title := None;
          YtDlp.transcript := Some (strip Samples.captions);
          YtDlp.source := Some (py "manual");
          YtDlp.language := py "en"; YtDlp.duration := None;
          YtDlp.error := None |}
  ∧
  (YtDlp.extract_youtube_transcript MoreSamples.yt_dlp_no_metadata
     MoreSamples.request_auto Samples.yt_start).1
  = Ok {| YtDlp.success := true; YtDlp.video_id := Samples.video;
          YtDlp.title := None;
          YtDlp.transcript := Some (strip Samples.captions);
          YtDlp.source := Some (py "auto-generated");
          YtDlp.language := py "en"; YtDlp.duration := None;
          YtDlp.error := None |}.
Proof.
  split.
  - apply (proj1 (metadata_failure_is_not_fatal MoreSamples.yt_dlp_no_metadata
             Samples.request Samples.yt_start Samples.video
             (Raise (Exn TimeoutExpired (py "Command timed out after 30 seconds")))
             ∅ (py "/tmp/tmpk3x9")
             ltac:(vm_compute; reflexivity) ltac:(vm_compute; reflexivity) I
             ltac:(vm_compute; reflexivity))
           {| YtDlp.returncode := 0; YtDlp.stdout := []; YtDlp.stderr := [] |}
           {[ py "/tmp/tmpk3x9/subs.en.vtt" := Samples.captions ]}
           Samples.captions).
    + reflexivity.
    + vm_compute. reflexivity.
    + vm_compute. reflexivity.
  - apply (proj1 (proj2 (proj2 (metadata_failure_is_not_fatal
             MoreSamples.yt_dlp_no_metadata
             MoreSamples.request_auto Samples.yt_start Samples.video
             (Raise (Exn TimeoutExpired (py "Command timed out after 30 seconds")))
             ∅ (py "/tmp/tmpk3x9")
             ltac:(vm_compute; reflexivity) ltac:(vm_compute; reflexivity) I
             ltac:(vm_compute; reflexivity))))
           {| YtDlp.returncode := 0; YtDlp.stdout := []; YtDlp.stderr := [] |}
           {[ py "/tmp/tmpk3x9/subs.en.vtt" := Samples.captions ]}
           Samples.captions).
    + reflexivity.
    + vm_compute. reflexivity.
    + vm_compute. reflexivity.
Defined.

Lemma caption_files_removed_witness :
  YtDlp.files
    (YtDlp.extract_youtube_transcript (Samples.yt_dlp true true false)
       Samples.request Samples.yt_start).2
    !! py "/tmp/tmpk3x9/subs.en.vtt" = None.
Proof.
  apply (proj2 (caption_files_removed (Samples.yt_dlp true true false)
                  Samples.request Samples.yt_start Samples.video
                  (Some (py "Never Gonna Give You Up")) (Some 212%Z)
                  Samples.yt_after_info (py "/tmp/tmpk3x9")
                  ltac:(repeat split; vm_compute; reflexivity))).
  - done.
  - vm_compute. reflexivity.
Defined.

(** ** Runs of the other paths of the audio endpoint *)

Lemma audio_invalid_url_witness :
  YtDlp.download_youtube_audio (Samples.yt_dlp false false false)
    (py "not a video") Samples.yt_start
  = (Raise (Exn (HTTPException 400)
              (py "Could not extract video ID from: not a video")),
     Samples.yt_start).
Proof.
  apply (audio_invalid_url (Samples.yt_dlp false false false) (py "not a video")
           Samples.yt_start
           (Exn ValueError (py "Could not extract video ID from: not a video"))).
  vm_compute. reflexivity.
Defined.

Lemma audio_download_failures_witness :
  (YtDlp.download_youtube_audio (MoreSamples.yt_dlp_failing 1)
     (py "https://youtu.be/dQw4w9WgXcQ") Samples.yt_start).1
  = Raise (Exn (HTTPException 500) (py "yt-dlp error: ERROR: Video unavailable"))
  ∧ (YtDlp.download_youtube_audio (MoreSamples.yt_dlp_failing 0)
       (py "https://youtu.be/dQw4w9WgXcQ") Samples.yt_start).1
  = Raise (Exn (HTTPException 500) (py "Audio file not created")).
Proof.
  split.
  - apply (proj1 (audio_download_failures (MoreSamples.yt_dlp_failing 1)
                    (py "https://youtu.be/dQw4w9WgXcQ") Samples.yt_start
                    Samples.video _ ∅
                    ltac:(vm_compute; reflexivity) ltac:(vm_compute; reflexivity)
                    ltac:(vm_compute; reflexivity))).
    vm_compute. discriminate.
  - apply (proj2 (audio_download_failures (MoreSamples.yt_dlp_failing 0)
                    (py "https://youtu.be/dQw4w9WgXcQ") Samples.yt_start
                    Samples.video _ ∅
                    ltac:(vm_compute; reflexivity) ltac:(vm_compute; reflexivity)
                    ltac:(vm_compute; reflexivity))).
    + vm_compute. reflexivity.
    + vm_compute. reflexivity.
Defined.

Lemma audio_download_exceptions_witness :
  (YtDlp.download_youtube_audio MoreSamples.yt_dlp_stalled
     (py "https://youtu.be/dQw4w9WgXcQ") Samples.yt_start).1
  = Raise (Exn (HTTPException 504) (py "Timeout downloading audio")).
Proof.
  rewrite (audio_download_exceptions MoreSamples.yt_dlp_stalled
             (py "https://youtu.be/dQw4w9WgXcQ") Samples.yt_start
             Samples.video
             (Exn TimeoutExpired (py "Command timed out after 300 seconds")) ∅);
    [reflexivity|vm_compute; reflexivity..].
Defined.

Lemma audio_second_request_is_cached_witness :
  (YtDlp.download_youtube_audio (Samples.yt_dlp false false false)
     (py "https://www.youtube.com/watch?v=dQw4w9WgXcQ")
     (YtDlp.download_youtube_audio (Samples.yt_dlp false false false)
        (py "https://youtu.be/dQw4w9WgXcQ") Samples.yt_start).2).1
  = Ok {| YtDlp.audio_success := true;
          YtDlp.audio_path := py "/app/temp/dQw4w9WgXcQ.mp3";
          YtDlp.audio_video_id := Samples.video; YtDlp.cached := true |}.
Proof.
  rewrite (proj1 (audio_second_request_is_cached
                    (Samples.yt_dlp false false false)
                    (py "https://youtu.be/dQw4w9WgXcQ")
                    (py "https://www.youtube.com/watch?v=dQw4w9WgXcQ")
                    Samples.yt_start Samples.video
                    {| YtDlp.returncode := 0; YtDlp.stdout := [];
                       YtDlp.stderr := [] |}
                    {[ py "/app/temp/dQw4w9WgXcQ.mp3" := py "ID3" ]}
                    ltac:(vm_compute; reflexivity)
                    ltac:(vm_compute; reflexivity)
                    ltac:(vm_compute; reflexivity)
                    ltac:(vm_compute; reflexivity)
                    ltac:(reflexivity)
                    ltac:(vm_compute; eauto))).
  reflexivity.
Defined.

Lemma audio_output_template_witness :
  YtDlp.cmd_audio (YtDlp.audio_output_path Samples.video)
    (YtDlp.watch_url Samples.video)
  = [ py "yt-dlp"; py "-x"; py "--audio-format"; py "mp3"; py "-o";
      py "/app/temp/dQw4w9WgXcQ.%(ext)s";
      py "https://www.youtube.com/watch?v=dQw4w9WgXcQ" ].
Proof.
  apply (audio_output_template Samples.video). split; reflexivity.
Defined.

(** ** Runs of the information endpoint *)

Lemma video_info_failures_witness :
  (YtDlpInfo.get_video_info MoreSamples.yt_dlp_stalled MoreSamples.json_loads
     (py "https://youtu.be/dQw4w9WgXcQ") Samples.yt_start).1
  = Raise (Exn (HTTPException 504) (py "Timeout getting video info"))
  ∧ (YtDlpInfo.get_video_info (MoreSamples.yt_dlp_failing 0)
       MoreSamples.json_loads
       (py "https://youtu.be/dQw4w9WgXcQ") Samples.yt_start).1
  = Raise (Exn (HTTPException 500) (py "Failed to parse video info")).
Proof.
  split.
  - apply (proj1 (proj2 (video_info_failures MoreSamples.yt_dlp_stalled
             MoreSamples.json_loads (py "https://youtu.be/dQw4w9WgXcQ")
             Samples.yt_start) Samples.video _ ∅
             ltac:(vm_compute; reflexivity) ltac:(vm_compute; reflexivity))
             _ eq_refl).
    reflexivity.
  - apply (proj2 (proj2 (proj2 (video_info_failures (MoreSamples.yt_dlp_failing 0)
             MoreSamples.json_loads (py "https://youtu.be/dQw4w9WgXcQ")
             Samples.yt_start) Samples.video _ ∅
             ltac:(vm_compute; reflexivity) ltac:(vm_compute; reflexivity)))
             _ (Exn ValueError (py "Expecting value")) eq_refl).
    + reflexivity.
    + reflexivity.
Defined.

Lemma video_info_fields_witness :
  ∃ video,
    (YtDlpInfo.get_video_info (Samples.yt_dlp true true false)
       MoreSamples.json_loads
       (py "https://youtu.be/dQw4w9WgXcQ") Samples.yt_start).1 = Ok video
    ∧ YtDlpInfo.title video = py "Never Gonna Give You Up"
    ∧ YtDlpInfo.channel video = py "Unknown"
    ∧ YtDlpInfo.has_manual_subs video = false.
Proof.
  destruct (video_info_fields (Samples.yt_dlp true true false)
              MoreSamples.json_loads (py "https://youtu.be/dQw4w9WgXcQ")
              Samples.yt_start Samples.video
              {| YtDlp.returncode := 0; YtDlp.stdout := py "{}";
                 YtDlp.stderr := [] |} ∅ MoreSamples.info
              ltac:(vm_compute; reflexivity) ltac:(vm_compute; reflexivity)
              ltac:(reflexivity) ltac:(reflexivity))
    as (video & Hrun & _ & Htitle & _ & Hchannel & Hmanual & _).
  exists video. split; [exact Hrun|]. split; [exact Htitle|].
  split; [exact Hchannel|].
  destruct (YtDlpInfo.has_manual_subs video); [|reflexivity].
  destruct (proj1 Hmanual eq_refl) as [l Hl]. by apply elem_of_empty in Hl.
Defined.

(** ** Runs of the whisper server on the other paths *)

Lemma whisper_model_assigned_once_witness :
  Whisper.whisper_model
    (Whisper.get_whisper_model (Samples.whisper None) (Some (py "small"))
       MoreSamples.whisper_serving).2
  = Some Samples.base_model.
Proof.
  apply (whisper_model_assigned_once (Samples.whisper None) (Some (py "small"))
           MoreSamples.whisper_serving Samples.base_model).
  reflexivity.
Defined.

Lemma whisper_model_load_failure_witness :
  Whisper.get_whisper_model MoreSamples.whisper_broken (Some (py "huge"))
    Samples.whisper_start
  = (Raise (Exn ValueError (py "Invalid model size")), Samples.whisper_start).
Proof.
  apply (whisper_model_load_failure MoreSamples.whisper_broken
           (Some (py "huge")) Samples.whisper_start).
  - reflexivity.
  - left. reflexivity.
Defined.

Lemma whisper_model_default_size_witness :
  (Whisper.get_whisper_model (Samples.whisper None) (Some [])
     Samples.whisper_start).1
  = Ok Samples.base_model.
Proof.
  apply (whisper_model_default_size (Samples.whisper None) (Some [])
           Samples.whisper_start).
  - right. reflexivity.
  - reflexivity.
  - reflexivity.
Defined.

Lemma other_sizes_are_rebuilt_witness :
  (Whisper.get_whisper_model (Samples.whisper None) (Some (py "small"))
     (Whisper.get_whisper_model (Samples.whisper None) (Some (py "small"))
        MoreSamples.whisper_serving).2).1
  = Ok {| Whisper.instance := 2; Whisper.size := py "small" |}.
Proof.
  apply (other_sizes_are_rebuilt (Samples.whisper None) (py "small")
           115%N (py "mall") MoreSamples.whisper_serving Samples.base_model).
  - reflexivity.
  - reflexivity.
  - vm_compute. discriminate.
  - reflexivity.
Defined.

Lemma health_check_reports_model_witness :
  (WhisperInfo.health_check (Samples.whisper None)
     (Whisper.get_whisper_model (Samples.whisper None) (Some (py "base"))
        Samples.whisper_start).2).1
  = Ok {| WhisperInfo.status := py "ok";
          WhisperInfo.service := py "whisper-server";
          WhisperInfo.version := py "1.0.0";
          WhisperInfo.default_model := py "base";
          WhisperInfo.model_loaded := true |}.
Proof.
  apply (proj1 (proj2 (health_check_reports_model (Samples.whisper None)
                         (Some (py "base")) Samples.whisper_start))
           Samples.base_model).
  vm_compute. reflexivity.
Defined.

Lemma upload_leaves_other_files_witness :
  Whisper.files
    (Whisper.transcribe_audio (Samples.whisper None) Samples.upload None
       (py "base") MoreSamples.whisper_serving).2
    !! py "/app/temp/dQw4w9WgXcQ.mp3"
  = Some (py "ID3").
Proof.
  etransitivity.
  - apply (upload_leaves_other_files (Samples.whisper None) Samples.upload None
             MoreSamples.whisper_serving Samples.base_model
             (py "/app/temp/dQw4w9WgXcQ.mp3")).
    + reflexivity.
    + vm_compute. discriminate.
  - vm_compute. reflexivity.
Defined.

Lemma upload_keeps_loaded_model_witness :
  Whisper.constructed
    (Whisper.transcribe_audio (Samples.whisper None) Samples.upload None
       (py "base") MoreSamples.whisper_serving).2
  = 1.
Proof.
  apply (proj2 (upload_keeps_loaded_model (Samples.whisper None) Samples.upload
                  None (py "base") MoreSamples.whisper_serving
                  Samples.base_model eq_refl)).
  reflexivity.
Defined.

Lemma url_temp_file_removed_witness :
  Whisper.files
    (Whisper.transcribe_from_url (Samples.whisper None) Samples.url_request
       Samples.whisper_start).2 !! Samples.temp_name
  = None.
Proof.
  apply (url_temp_file_removed (Samples.whisper None) Samples.url_request
           Samples.whisper_start
           {| Whisper.status_error := None;
              Whisper.content_type := Some (py "audio/mpeg");
              Whisper.content := py "ID3" |}
           Samples.temp_name).
  - reflexivity.
  - reflexivity.
  - vm_compute. reflexivity.
Defined.

Lemma url_download_failure_witness :
  (Whisper.transcribe_from_url MoreSamples.whisper_offline Samples.url_request
     Samples.whisper_start).1
  = Ok (Whisper.failure
          (py "Failed to download audio: All connection attempts failed")
          (py "base")).
Proof.
  rewrite (url_download_failure MoreSamples.whisper_offline Samples.url_request
             Samples.whisper_start
             (Exn HTTPError (py "All connection attempts failed"))).
  - reflexivity.
  - left. reflexivity.
Defined.

Lemma path_not_found_witness :
  (Whisper.transcribe_from_path (Samples.whisper None)
     (py "/app/temp/missing.mp3") None (py "base") Samples.whisper_start).2
  = Samples.whisper_start.
Proof.
  rewrite (path_not_found (Samples.whisper None) (py "/app/temp/missing.mp3")
             None (py "base") Samples.whisper_start).
  - reflexivity.
  - vm_compute. reflexivity.
Defined.
